(** * AISalesAssistant: the discount and pricing decision engine

    A shallow embedding of
    - [app/models/coupon.py], [app/models/order.py], [app/models/discount.py]
      (the Pydantic models the engine builds and reads),
    - [app/config/discount_options.py] (the discount option catalog),
    - [app/repositories/coupon_repository.py] (coupon validation and use),
    - [app/repositories/discount_repository.py] (the applied-discount ledger),
    - [app/services/price_calculator_service.py] (the price calculator),
    - [app/services/order_service.py] and [app/services/coupon_service.py]
      (the callers that price an order and use a coupon),
    followed by the properties of the engine.

    How the program is read.
    - Python raises; the embedding returns [Raise e].  Functions of a
      repository or service run in the monad [db], which threads the
      tables of the relational store; a [try ... except] keeps what was
      written before the exception.
    - [Decimal] values are exact rationals ([Qc]): every amount of the
      engine is a [Numeric(10,2)] column or a product, quotient by 100, sum
      or minimum of such, all of which [decimal] computes exactly at its
      default precision of 28 digits.  Recommendation scores are Python
      floats and are computed in binary64 ([PrimFloat]).
    - A Pydantic model has the fields its class declares: it cannot be
      built without a field declared required, and reading any other
      attribute raises [AttributeError].
    - A table is the list of its rows, and a row has the columns the
      mapped class of [app/models/database] declares; a nullable column
      holds an [option].  A mapped class is constructed with its columns
      as keywords and refuses any other keyword with a [TypeError];
      reading an attribute the class does not declare raises
      [AttributeError].
    - [datetime.now()] and [uuid.uuid4()] are arguments ([now], [fresh_id]);
      a [datetime] is a number of seconds. *)

From Stdlib Require Import ZArith QArith Qcanon String Ascii PrimFloat SpecFloat
  FloatAxioms.
From stdpp Require Import base decidable option list strings gmap numbers sorting.

Set Warnings "-register-all,-inexact-float".
Local Open Scope Z_scope.

(** ** Python values *)

Definition Decimal := Qc.
Definition datetime := Z.

(** [dec n d] is the decimal [n/d], e.g. [dec 29900 100] for [Decimal("299.00")]. *)
Definition dec (n : Z) (d : positive) : Decimal := Q2Qc (n # d).

(** Python's [min(a, b)] and [max(a, b)]: the first argument unless the
    second is strictly smaller (larger). *)
Definition py_min (a b : Decimal) : Decimal := if decide (b < a)%Qc then b else a.
Definition py_max (a b : Decimal) : Decimal := if decide (a < b)%Qc then b else a.

(** The exceptions the modelled code can raise. *)
Inductive exn :=
| KeyError (key : string)            (* d[key] on a dict without the key *)
| AttributeError (attr : string)     (* obj.attr on an object without it *)
| TypeError                          (* an operator on unsupported operands *)
| InvalidOperation                   (* Decimal(s) on a non-numeric string *)
| ValueError                         (* Enum(value) on a value of no member *)
| ValidationError (model : string)   (* a Pydantic model refuses its input *)
| MultipleResultsFound               (* scalar_one_or_none() on several rows *)
| IntegrityError                     (* an INSERT that leaves a NOT NULL column empty *)
| CompileError.                      (* a statement that sets a column the table has not *)

Inductive result (A : Type) :=
| Return (a : A)
| Raise (e : exn).
Arguments Return {A} a.
Arguments Raise {A} e.

Global Instance result_ret : MRet result := λ A a, Return a.
Global Instance result_bind : MBind result :=
  λ A B f m, match m with Return a => f a | Raise e => Raise e end.

(** A value of type [Any].  [PNum d] is an [int], a [float] or a [Decimal]
    written as the decimal numeral [d] (the numeral [str] prints, which is
    what [Decimal(str(v))] reads back). *)
Inductive pyval :=
| PNone
| PBool (b : bool)
| PNum (d : Decimal)
| PStr (s : string)
| PList (l : list pyval)
| PDict (d : list (string * pyval)).

(** [bool(v)]. *)
Definition truthy (v : pyval) : bool :=
  match v with
  | PNone => false
  | PBool b => b
  | PNum d => negb (bool_decide (d = 0%Qc))
  | PStr s => negb (bool_decide (s = EmptyString))
  | PList l => negb (bool_decide (l = []))
  | PDict d => match d with [] => false | _ => true end
  end.

(** [v == s] for a string literal [s]. *)
Definition eq_str (v : pyval) (s : string) : bool :=
  match v with PStr s' => bool_decide (s' = s) | _ => false end.

(** [v > n] and [v >= n] for an integer literal [n]: numbers compare by
    value ([True] is 1), anything else is a [TypeError]. *)
Definition as_number (v : pyval) : result Decimal :=
  match v with
  | PNum d => Return d
  | PBool b => Return (if b then 1%Qc else 0%Qc)
  | _ => Raise TypeError
  end.
Definition gt_int (v : pyval) (n : Z) : result bool :=
  d ← as_number v; mret (bool_decide (Qc_of_Z n < d)%Qc).
Definition ge_int (v : pyval) (n : Z) : result bool :=
  d ← as_number v; mret (bool_decide (Qc_of_Z n ≤ d)%Qc).

(** [Decimal(str(v))]: the numeral of a number; [str] of [None], a bool, a
    list or a dict is no numeral.  (Strings holding a numeral are written
    as the [PNum] they parse to.) *)
Definition Decimal_of_str (v : pyval) : result Decimal :=
  match v with
  | PNum d => Return d
  | _ => Raise InvalidOperation
  end.

(** A dict with string keys, in insertion order: [d[key]] and [d.get(key)]. *)
Fixpoint dict_get (d : list (string * pyval)) (key : string) : option pyval :=
  match d with
  | [] => None
  | (k, v) :: d' => if bool_decide (k = key) then Some v else dict_get d' key
  end.
Definition dict_item (d : list (string * pyval)) (key : string) : result pyval :=
  match dict_get d key with Some v => Return v | None => Raise (KeyError key) end.

(** [len(s)] counts code points: the bytes of the UTF-8 string that are not
    continuation bytes (10xxxxxx). *)
Fixpoint py_len (s : string) : nat :=
  match s with
  | EmptyString => 0%nat
  | String c s' =>
      let n := N_of_ascii c in
      if bool_decide (128 ≤ n < 192)%N then py_len s' else S (py_len s')
  end.

(** [obj.attr]: the value of an attribute the object has, an
    [AttributeError] for any other name.  [attrs] lists the attributes of
    the object (the declared fields of a Pydantic model, the methods and
    instance variables of a class); [value] is what the object holds under
    that name, [None] when it holds nothing. *)
Definition getattr {A : Type} (attrs : list string) (attr : string)
    (value : option A) : result A :=
  match value with
  | Some v => if bool_decide (attr ∈ attrs) then Return v else Raise (AttributeError attr)
  | None => Raise (AttributeError attr)
  end.

(** [None] as an operand of [<] or [>=]: a [TypeError]. *)
Definition operand {A : Type} (value : option A) : result A :=
  match value with
  | Some v => Return v
  | None => Raise TypeError
  end.

(** [Optional] values in a condition: [None] and zero are false. *)
Definition Decimal_truthy (o : option Decimal) : option Decimal :=
  match o with
  | Some m => if bool_decide (m = 0%Qc) then None else Some m
  | None => None
  end.
Definition int_truthy (o : option Z) : option Z :=
  match o with
  | Some n => if bool_decide (n = 0) then None else Some n
  | None => None
  end.

(** ** Pydantic models: [app/models/coupon.py], [app/models/order.py] *)

(** [Model(field=value, ...)]: Pydantic raises a [ValidationError] when a
    field declared without a default is not among the keyword arguments;
    keyword arguments the model does not declare are ignored. *)
Definition pydantic_init {A : Type} (model : string)
    (required supplied : list string) (obj : A) : result A :=
  if forallb (λ f, bool_decide (f ∈ supplied)) required
  then Return obj
  else Raise (ValidationError model).

Inductive CouponType := PERCENTAGE | FIXED_AMOUNT | FREE_SHIPPING.
Inductive CouponStatus := ACTIVE | INACTIVE | EXPIRED | USED_UP.

Global Instance CouponType_eq_dec : EqDecision CouponType.
Proof. solve_decision. Defined.
Global Instance CouponStatus_eq_dec : EqDecision CouponStatus.
Proof. solve_decision. Defined.

(** [CouponType(s)] and [CouponStatus(s)]: the member with that value. *)
Definition CouponType_of (s : string) : option CouponType :=
  if bool_decide (s = "percentage"%string) then Some PERCENTAGE
  else if bool_decide (s = "fixed_amount"%string) then Some FIXED_AMOUNT
  else if bool_decide (s = "free_shipping"%string) then Some FREE_SHIPPING
  else None.
Definition CouponStatus_of (s : string) : option CouponStatus :=
  if bool_decide (s = "active"%string) then Some ACTIVE
  else if bool_decide (s = "inactive"%string) then Some INACTIVE
  else if bool_decide (s = "expired"%string) then Some EXPIRED
  else if bool_decide (s = "used_up"%string) then Some USED_UP
  else None.

Definition opt_all {A : Type} (p : A → bool) (o : option A) : bool :=
  match o with Some a => p a | None => true end.

(** class Coupon(BaseModel) *)
Module Coupon.
Record t := {
  coupon_id : string;
  coupon_code : string;
  coupon_name : string;
  coupon_type : CouponType;
  discount_value : Decimal;
  min_order_amount : Decimal;
  max_discount : option Decimal;
  valid_from : datetime;
  valid_to : datetime;
  usage_limit : option Z;
  usage_limit_per_user : option Z;
  used_count : Z;
  applicable_courses : option (list string);
  description : option string;
  status : CouponStatus;
  created_at : datetime;
  updated_at : datetime
}.

(** The field constraints and the two validators of the model:
    [coupon_code] of 1 to 50 characters, [discount_value >= 0],
    [min_order_amount >= 0], [max_discount >= 0], [usage_limit >= 1],
    [usage_limit_per_user >= 1], [used_count >= 0], [description] of at
    most 500 characters, [validate_validity_period] (valid_to after
    valid_from) and [validate_discount_value] (a percentage at most 1, a
    fixed amount above 0). *)
Definition valid (c : t) : bool :=
  bool_decide (1 ≤ py_len (coupon_code c) ≤ 50)%nat
  && bool_decide (0 ≤ discount_value c)%Qc
  && bool_decide (0 ≤ min_order_amount c)%Qc
  && opt_all (λ m, bool_decide (0 ≤ m)%Qc) (max_discount c)
  && opt_all (λ n, bool_decide (1 ≤ n)) (usage_limit c)
  && opt_all (λ n, bool_decide (1 ≤ n)) (usage_limit_per_user c)
  && bool_decide (0 ≤ used_count c)
  && opt_all (λ d, bool_decide (py_len d ≤ 500)%nat) (description c)
  && bool_decide (valid_from c < valid_to c)
  && match coupon_type c with
     | PERCENTAGE => bool_decide (discount_value c ≤ 1)%Qc
     | FIXED_AMOUNT => bool_decide (0 < discount_value c)%Qc
     | FREE_SHIPPING => true
     end.

(** Coupon.calculate_discount *)
Definition calculate_discount (self : t) (order_amount : Decimal) : Decimal :=
  if bool_decide (order_amount < min_order_amount self)%Qc then 0%Qc
  else
    let discount :=
      match coupon_type self with
      | PERCENTAGE => (order_amount * discount_value self)%Qc
      | _ => discount_value self
      end in
    let discount :=
      match Decimal_truthy (max_discount self) with
      | Some m => if bool_decide (m < discount)%Qc then m else discount
      | None => discount
      end in
    py_min discount order_amount.

(** Coupon.is_valid; [now] is [datetime.now()]. *)
Definition is_valid (self : t) (now : datetime) : bool :=
  bool_decide (status self = ACTIVE)
  && (bool_decide (valid_from self ≤ now) && bool_decide (now ≤ valid_to self))
  && match usage_limit self with
     | None => true
     | Some limit => bool_decide (used_count self < limit)
     end.
End Coupon.

(** The messages [validate_coupon_for_user] puts in [validation_errors]. *)
Inductive coupon_error :=
| CouponNotFound                        (* "优惠券不存在" *)
| CouponDeactivated                     (* "优惠券已停用" *)
| CouponNotStarted                      (* "优惠券尚未开始使用" *)
| CouponExpired                         (* "优惠券已过期" *)
| CouponUsageCapReached                 (* "优惠券使用次数已达上限" *)
| OrderBelowMinimum (required : Decimal)  (* f"订单金额不满足最低要求 {min_order_amount} 元" *)
| UserCapReached.                       (* "您已达到该优惠券的使用上限" *)

(** class CouponValidation(BaseModel) *)
Module CouponValidation.
Record t := {
  is_valid : bool;
  coupon : option Coupon.t;
  validation_errors : list coupon_error;
  applicable_courses : list string;
  estimated_discount : option Decimal;
  min_order_required : option Decimal
}.

Definition fields : list string :=
  ["is_valid"; "coupon"; "validation_errors"; "applicable_courses";
   "estimated_discount"; "min_order_required"]%string.
Definition required : list string := ["is_valid"]%string.

Definition init (supplied : list string) (obj : t) : result t :=
  pydantic_init "CouponValidation" required supplied obj.
End CouponValidation.

(** class OrderItem(BaseModel).  The record holds the keyword arguments the
    price calculator passes to [OrderItem(...)], [kwargs] their names;
    [required] are the fields the model declares without a default
    ([Field(...)]). *)
Module OrderItem.
Record t := {
  course_id : string;
  course_name : string;
  original_price : Decimal;
  discount_price : Decimal;
  quantity : Z;
  subtotal : Decimal
}.
Definition kwargs : list string :=
  ["course_id"; "course_name"; "original_price"; "discount_price";
   "quantity"; "subtotal"]%string.

Definition fields : list string :=
  ["item_id"; "course_id"; "course_name"; "original_price";
   "discounted_price"; "quantity"]%string.
Definition required : list string :=
  ["item_id"; "course_id"; "course_name"; "original_price";
   "discounted_price"]%string.

Definition init (kw : t) : result t :=
  pydantic_init "OrderItem" required kwargs kw.
End OrderItem.

(** class PriceCalculation(BaseModel), in the same way. *)
Module PriceCalculation.
Record t := {
  original_total : Decimal;
  discount_total : Decimal;
  final_total : Decimal;
  coupon_discount : Decimal;
  auto_discount : Decimal;
  items : list OrderItem.t
}.
Definition kwargs : list string :=
  ["original_total"; "discount_total"; "final_total"; "coupon_discount";
   "auto_discount"; "items"]%string.

Definition fields : list string :=
  ["course_items"; "original_amount"; "discount_amount"; "coupon_discount";
   "final_amount"; "discount_details"; "coupon_details"; "savings";
   "savings_percentage"]%string.
Definition required : list string :=
  ["course_items"; "original_amount"; "final_amount"; "savings";
   "savings_percentage"]%string.

Definition init (kw : t) : result t :=
  pydantic_init "PriceCalculation" required kwargs kw.
End PriceCalculation.

(** ** The relational store *)

(** Table [courses]. *)
Module CourseDB.
Record t := {
  course_id : string;
  course_name : string;
  category : string;
  original_price : Decimal;
  current_price : Decimal;
  status : string
}.
End CourseDB.

(** Table [coupons], as [models/database/coupon_db.py] maps it.  The
    columns [min_order_amount], [used_count] and [status] are nullable
    and their defaults are those of the mapped class: the ORM fills them
    in when it inserts a [CouponDB] object, and a row inserted by a
    statement that does not list them (the sample coupons of
    [scripts/create_offer_tables.py]) holds NULL there.  [created_at] and
    [updated_at] are filled in by the server. *)
Module CouponDB.
Record t := {
  coupon_id : string;
  coupon_code : string;
  coupon_name : string;
  coupon_type : string;
  discount_value : Decimal;
  min_order_amount : option Decimal;
  max_discount : option Decimal;
  valid_from : datetime;
  valid_to : datetime;
  usage_limit : option Z;
  usage_limit_per_user : option Z;
  used_count : option Z;
  applicable_courses : option (list string);
  description : option string;
  status : option string;
  created_at : datetime;
  updated_at : datetime
}.

(** [.values(used_count=CouponDB.used_count + 1, updated_at=now)] on a
    row; in SQL [NULL + 1] is NULL. *)
Definition bump (now : datetime) (r : t) : t :=
  {| coupon_id := coupon_id r; coupon_code := coupon_code r;
     coupon_name := coupon_name r; coupon_type := coupon_type r;
     discount_value := discount_value r;
     min_order_amount := min_order_amount r; max_discount := max_discount r;
     valid_from := valid_from r; valid_to := valid_to r;
     usage_limit := usage_limit r;
     usage_limit_per_user := usage_limit_per_user r;
     used_count := (λ n, n + 1) <$> used_count r;
     applicable_courses := applicable_courses r;
     description := description r; status := status r;
     created_at := created_at r; updated_at := now |}.
End CouponDB.

(** Table [coupon_usage]. *)
Module CouponUsageDB.
Record t := {
  usage_id : string;
  coupon_id : string;
  coupon_code : string;
  user_id : string;
  order_id : option string;
  course_ids : list string;
  original_amount : Decimal;
  discount_amount : Decimal;
  final_amount : Decimal;
  used_at : datetime
}.
End CouponUsageDB.

(** [Model(name=value, ...)] on a mapped class: the constructor sets the
    attributes named, and raises a [TypeError] for a keyword that is no
    attribute of the class. *)
Definition declarative_init {A : Type} (columns keywords : list string) (obj : A)
    : result A :=
  if forallb (λ k, bool_decide (k ∈ columns)) keywords then Return obj
  else Raise TypeError.

(** [.values(name=value, ...)] of an [update]: a name that is no column of
    the table makes the statement fail when it is compiled. *)
Definition values (columns names : list string) : result unit :=
  if forallb (λ k, bool_decide (k ∈ columns)) names then Return tt
  else Raise CompileError.

(** Table [applied_discounts], as [models/database/discount_db.py] maps
    it: the key is [discount_id], and the class has no [id], [course_id],
    [order_id] or [updated_at].  A column is [None] where the row holds
    NULL, or where the object has not been given the attribute. *)
Module AppliedDiscountDB.
Record t := {
  discount_id : option string;
  user_id : string;
  option_type : option string;
  discount_type : string;
  discount_value : Decimal;
  applicable_course_ids : option (list string);
  original_amount : option Decimal;
  discount_amount : option Decimal;
  final_amount : option Decimal;
  agent_reasoning : option string;
  created_by : option string;
  valid_until : option datetime;
  is_used : option bool;
  used_at : option datetime;
  created_at : option datetime
}.

Definition columns : list string :=
  ["discount_id"; "user_id"; "option_type"; "discount_type"; "discount_value";
   "applicable_course_ids"; "original_amount"; "discount_amount";
   "final_amount"; "agent_reasoning"; "created_by"; "valid_until"; "is_used";
   "used_at"; "created_at"]%string.

(** The INSERT of an object: [created_by] and [is_used] take the default
    of the class when the object has none, [created_at] is the time of
    the server. *)
Definition with_defaults (now : datetime) (r : t) : t :=
  {| discount_id := discount_id r; user_id := user_id r;
     option_type := option_type r; discount_type := discount_type r;
     discount_value := discount_value r;
     applicable_course_ids := applicable_course_ids r;
     original_amount := original_amount r;
     discount_amount := discount_amount r; final_amount := final_amount r;
     agent_reasoning := agent_reasoning r;
     created_by := Some (default "agent"%string (created_by r));
     valid_until := valid_until r;
     is_used := Some (default false (is_used r));
     used_at := used_at r;
     created_at := Some (default now (created_at r)) |}.

(** The columns declared [nullable=False] (and the key) hold a value. *)
Definition insertable (r : t) : bool :=
  bool_decide (is_Some (discount_id r))
  && bool_decide (is_Some (option_type r))
  && bool_decide (is_Some (applicable_course_ids r))
  && bool_decide (is_Some (original_amount r))
  && bool_decide (is_Some (discount_amount r))
  && bool_decide (is_Some (final_amount r)).

(** [is_used=True, used_at=now] on a row. *)
Definition mark_used (now : datetime) (r : t) : t :=
  {| discount_id := discount_id r; user_id := user_id r;
     option_type := option_type r; discount_type := discount_type r;
     discount_value := discount_value r;
     applicable_course_ids := applicable_course_ids r;
     original_amount := original_amount r;
     discount_amount := discount_amount r; final_amount := final_amount r;
     agent_reasoning := agent_reasoning r; created_by := created_by r;
     valid_until := valid_until r; is_used := Some true;
     used_at := Some now; created_at := created_at r |}.
End AppliedDiscountDB.

(** Table [discount_usage_history], as [models/database/discount_db.py]
    maps it: the class has no [applied_discount_id]. *)
Module DiscountUsageHistoryDB.
Record t := {
  history_id : option string;
  user_id : string;
  discount_id : option string;
  order_id : option string;
  option_type : option string;
  discount_amount : Decimal;
  course_ids : option (list string);
  created_by : option string;
  used_at : option datetime
}.

Definition columns : list string :=
  ["history_id"; "user_id"; "discount_id"; "order_id"; "option_type";
   "discount_amount"; "course_ids"; "created_by"; "used_at"]%string.
End DiscountUsageHistoryDB.

Record Store := {
  courses : list CourseDB.t;
  coupons : list CouponDB.t;
  coupon_usage : list CouponUsageDB.t;
  applied_discounts : list AppliedDiscountDB.t;
  discount_usage_history : list DiscountUsageHistoryDB.t
}.

(** A computation on the session: it returns or raises, and leaves the
    tables as its statements made them. *)
Definition db (A : Type) : Type := Store → result A * Store.

Global Instance db_ret : MRet db := λ A a s, (Return a, s).
Global Instance db_bind : MBind db :=
  λ A B f m s,
    match m s with
    | (Return a, s') => f a s'
    | (Raise e, s') => (Raise e, s')
    end.

Definition lift {A : Type} (r : result A) : db A := λ s, (r, s).
Definition tables : db Store := λ s, (Return s, s).
Definition set_tables (s' : Store) : db unit := λ _, (Return tt, s').

(** [try: body except Exception: handler].  The function does not roll
    back: what [body] wrote before it raised stays in the session. *)
Definition try_except {A : Type} (body handler : db A) : db A :=
  λ s,
    match body s with
    | (Return a, s') => (Return a, s')
    | (Raise _, s') => handler s'
    end.

(** [result.scalar_one_or_none()] *)
Definition scalar_one_or_none {A : Type} (rows : list A) : result (option A) :=
  match rows with
  | [] => Return None
  | [r] => Return (Some r)
  | _ => Raise MultipleResultsFound
  end.

(** [.order_by(desc(column))]: the rows with the larger value first.  SQL
    fixes no order among rows of equal value; they come as the merge sort
    leaves them. *)
Definition order_by_desc {A : Type} (column : A → Decimal) (rows : list A)
    : list A :=
  @merge_sort A (λ a b, (column b ≤ column a)%Qc)
    (λ a b, decide (column b ≤ column a)%Qc) rows.

(** [max(rows, key=key)] on the list [first :: rest]: the first of the rows
    with the largest key. *)
Definition max_by {A : Type} (key : A → Decimal) (first : A) (rest : list A) : A :=
  fold_left (λ best y, if bool_decide (key best < key y)%Qc then y else best)
            rest first.

(** ** [app/repositories/coupon_repository.py] *)

Module CouponRepository.

Definition get_by_coupon_code (coupon_code : string) : db (option CouponDB.t) :=
  s ← tables;
  lift (scalar_one_or_none
          (filter (λ r, CouponDB.coupon_code r = coupon_code) (coupons s))).

Definition get_by_coupon_id (coupon_id : string) : db (option CouponDB.t) :=
  s ← tables;
  lift (scalar_one_or_none
          (filter (λ r, CouponDB.coupon_id r = coupon_id) (coupons s))).

(** to_model: the row becomes a [Coupon], which Pydantic validates.  The
    fields [status], [min_order_amount] and [used_count] of the model are
    not [Optional]: a [None] passed for one of them is refused. *)
Definition to_model (db_coupon : CouponDB.t) : result Coupon.t :=
  match CouponType_of (CouponDB.coupon_type db_coupon),
        CouponDB.status db_coupon ≫= CouponStatus_of,
        CouponDB.min_order_amount db_coupon,
        CouponDB.used_count db_coupon with
  | Some ty, Some st, Some min_order_amount, Some used_count =>
      let c :=
        {| Coupon.coupon_id := CouponDB.coupon_id db_coupon;
           Coupon.coupon_code := CouponDB.coupon_code db_coupon;
           Coupon.coupon_name := CouponDB.coupon_name db_coupon;
           Coupon.coupon_type := ty;
           Coupon.discount_value := CouponDB.discount_value db_coupon;
           Coupon.min_order_amount := min_order_amount;
           Coupon.max_discount := CouponDB.max_discount db_coupon;
           Coupon.valid_from := CouponDB.valid_from db_coupon;
           Coupon.valid_to := CouponDB.valid_to db_coupon;
           Coupon.usage_limit := CouponDB.usage_limit db_coupon;
           Coupon.usage_limit_per_user := CouponDB.usage_limit_per_user db_coupon;
           Coupon.used_count := used_count;
           Coupon.applicable_courses :=
             Some (default [] (CouponDB.applicable_courses db_coupon));
           Coupon.description := CouponDB.description db_coupon;
           Coupon.status := st;
           Coupon.created_at := CouponDB.created_at db_coupon;
           Coupon.updated_at := CouponDB.updated_at db_coupon |} in
      if Coupon.valid c then Return c else Raise (ValidationError "Coupon")
  | _, _, _, _ => Raise (ValidationError "Coupon")
  end.

Definition get_user_coupon_usage_count (user_id coupon_id : string) : db Z :=
  s ← tables;
  mret (Z.of_nat (length
    (filter (λ u, CouponUsageDB.user_id u = user_id
                  ∧ CouponUsageDB.coupon_id u = coupon_id) (coupon_usage s)))).

(** The conditions [get_valid_coupons] and [get_user_available_coupons]
    share.  In a [where] clause a comparison with NULL selects no row:
    [status == "active"] fails on a row without [status], and
    [used_count < usage_limit] on one without [used_count] or without
    [usage_limit]. *)
Definition currently_valid (current_time : datetime) (r : CouponDB.t) : bool :=
  bool_decide (CouponDB.status r = Some "active"%string)
  && bool_decide (CouponDB.valid_from r ≤ current_time)
  && bool_decide (current_time ≤ CouponDB.valid_to r)
  && match CouponDB.used_count r, CouponDB.usage_limit r with
     | Some used_count, Some limit => bool_decide (used_count < limit)
     | _, _ => false
     end.

Definition get_valid_coupons (current_time : option datetime) (now : datetime)
    : db (list CouponDB.t) :=
  let current_time := default now current_time in
  s ← tables;
  mret (order_by_desc CouponDB.discount_value
          (filter (λ r, currently_valid current_time r = true) (coupons s))).

(** The column [user_used_count] of the outer join with the subquery: the
    number of usage rows of the user for the coupon, NULL when the user has
    none. *)
Definition user_used_count (s : Store) (user_id coupon_id : string) : option Z :=
  match filter (λ u, CouponUsageDB.user_id u = user_id
                     ∧ CouponUsageDB.coupon_id u = coupon_id) (coupon_usage s) with
  | [] => None
  | rows => Some (Z.of_nat (length rows))
  end.

(** The [where] clause of [get_user_available_coupons]. *)
Definition available_to (s : Store) (user_id : string) (order_amount : Decimal)
    (current_time : datetime) (r : CouponDB.t) : bool :=
  currently_valid current_time r
  && match CouponDB.min_order_amount r with
     | Some min_order_amount => bool_decide (min_order_amount ≤ order_amount)%Qc
     | None => false
     end
  && match user_used_count s user_id (CouponDB.coupon_id r) with
     | None => true
     | Some n =>
         match CouponDB.usage_limit_per_user r with
         | Some limit => bool_decide (n < limit)
         | None => false
         end
     end.

Definition get_user_available_coupons (user_id : string) (order_amount : Decimal)
    (current_time : option datetime) (now : datetime) : db (list CouponDB.t) :=
  let current_time := default now current_time in
  s ← tables;
  mret (order_by_desc CouponDB.discount_value
          (filter (λ r, available_to s user_id order_amount current_time r = true)
                  (coupons s))).

(** The result of a failed check. *)
Definition rejected (err : coupon_error) (coupon_model : option Coupon.t)
    : db CouponValidation.t :=
  lift (CouponValidation.init
    ["is_valid"; "validation_errors"; "coupon"; "estimated_discount"]%string
    {| CouponValidation.is_valid := false;
       CouponValidation.validation_errors := [err];
       CouponValidation.coupon := coupon_model;
       CouponValidation.estimated_discount := Some 0%Qc;
       CouponValidation.applicable_courses := [];
       CouponValidation.min_order_required := None |}).

(** The lines "计算优惠金额" of [validate_coupon_for_user]. *)
Definition discount_amount_of (coupon : CouponDB.t) (order_amount : Decimal)
    : Decimal :=
  if bool_decide (CouponDB.coupon_type coupon = "fixed_amount"%string)
  then py_min (CouponDB.discount_value coupon) order_amount
  else
    let discount_amount := (order_amount * CouponDB.discount_value coupon)%Qc in
    let discount_amount :=
      match Decimal_truthy (CouponDB.max_discount coupon) with
      | Some m => py_min discount_amount m
      | None => discount_amount
      end in
    py_min discount_amount order_amount.

Definition validate_coupon_for_user (coupon_code user_id : string)
    (order_amount : Decimal) (current_time : option datetime) (now : datetime)
    : db CouponValidation.t :=
  let current_time := default now current_time in
  coupon ← get_by_coupon_code coupon_code;
  match coupon with
  | None => rejected CouponNotFound None
  | Some coupon =>
      coupon_model ← lift (to_model coupon);
      if negb (bool_decide (CouponDB.status coupon = Some "active"%string)) then
        rejected CouponDeactivated (Some coupon_model)
      else if bool_decide (current_time < CouponDB.valid_from coupon) then
        rejected CouponNotStarted (Some coupon_model)
      else if bool_decide (CouponDB.valid_to coupon < current_time) then
        rejected CouponExpired (Some coupon_model)
      else
        at_limit ←
          lift (match int_truthy (CouponDB.usage_limit coupon) with
                | Some limit =>
                    used_count ← operand (CouponDB.used_count coupon);
                    mret (bool_decide (limit ≤ used_count))
                | None => mret false
                end);
        if (at_limit : bool) then
          rejected CouponUsageCapReached (Some coupon_model)
        else
          min_order_amount ← lift (operand (CouponDB.min_order_amount coupon));
          if bool_decide (order_amount < min_order_amount)%Qc then
            lift (CouponValidation.init
              ["is_valid"; "validation_errors"; "coupon"; "estimated_discount";
               "min_order_required"]%string
              {| CouponValidation.is_valid := false;
                 CouponValidation.validation_errors :=
                   [OrderBelowMinimum min_order_amount];
                 CouponValidation.coupon := Some coupon_model;
                 CouponValidation.estimated_discount := Some 0%Qc;
                 CouponValidation.applicable_courses := [];
                 CouponValidation.min_order_required := Some min_order_amount |})
          else
            capped ←
              match int_truthy (CouponDB.usage_limit_per_user coupon) with
              | Some limit =>
                  user_used_count ←
                    get_user_coupon_usage_count user_id
                      (CouponDB.coupon_id coupon);
                  mret (bool_decide (limit ≤ user_used_count))
              | None => mret false
              end;
            if (capped : bool) then rejected UserCapReached (Some coupon_model)
            else
              lift (CouponValidation.init
                ["is_valid"; "validation_errors"; "coupon";
                 "estimated_discount"; "applicable_courses"]%string
                {| CouponValidation.is_valid := true;
                   CouponValidation.validation_errors := [];
                   CouponValidation.coupon := Some coupon_model;
                   CouponValidation.estimated_discount :=
                     Some (discount_amount_of coupon order_amount);
                   CouponValidation.applicable_courses :=
                     default [] (CouponDB.applicable_courses coupon);
                   CouponValidation.min_order_required := None |})
  end.

(** [self.db.add(usage)] *)
Definition add_usage (usage : CouponUsageDB.t) : db unit :=
  s ← tables;
  set_tables
    {| courses := courses s; coupons := coupons s;
       coupon_usage := coupon_usage s ++ [usage];
       applied_discounts := applied_discounts s;
       discount_usage_history := discount_usage_history s |}.

(** [update(CouponDB).where(CouponDB.coupon_id == coupon_id).values(...)] *)
Definition increment_used_count (coupon_id : string) (now : datetime) : db unit :=
  s ← tables;
  set_tables
    {| courses := courses s;
       coupons :=
         (λ r, if bool_decide (CouponDB.coupon_id r = coupon_id)
               then CouponDB.bump now r else r) <$> coupons s;
       coupon_usage := coupon_usage s;
       applied_discounts := applied_discounts s;
       discount_usage_history := discount_usage_history s |}.

Definition use_coupon (coupon_id user_id order_id : string)
    (discount_amount : Decimal) (fresh_id : string) (now : datetime) : db bool :=
  try_except
    (coupon ← get_by_coupon_id coupon_id;
     match coupon with
     | None => mret false
     | Some coupon =>
         add_usage
           {| CouponUsageDB.usage_id := fresh_id;
              CouponUsageDB.coupon_id := coupon_id;
              CouponUsageDB.coupon_code := CouponDB.coupon_code coupon;
              CouponUsageDB.user_id := user_id;
              CouponUsageDB.order_id := Some order_id;
              CouponUsageDB.course_ids := [];
              CouponUsageDB.original_amount := discount_amount;
              CouponUsageDB.discount_amount := discount_amount;
              CouponUsageDB.final_amount := 0%Qc;
              CouponUsageDB.used_at := now |};;
         increment_used_count coupon_id now;;
         mret true
     end)
    (mret false).

End CouponRepository.

(** ** [app/models/discount.py] and [app/config/discount_options.py] *)

Module DiscountType.
Inductive t := PERCENTAGE | FIXED_AMOUNT.
Definition of_value (v : pyval) : option t :=
  if eq_str v "percentage" then Some PERCENTAGE
  else if eq_str v "fixed_amount" then Some FIXED_AMOUNT
  else None.
End DiscountType.

Module DiscountOptionType.
Inductive t := NEW_USER | URGENT_CONVERSION | RETURNING_USER | BULK_PURCHASE | VIP_DISCOUNT.

Global Instance eq_dec : EqDecision t.
Proof. solve_decision. Defined.

(** [DiscountOptionType(key)] *)
Definition of_value (key : string) : result t :=
  if bool_decide (key = "new_user"%string) then Return NEW_USER
  else if bool_decide (key = "urgent_conversion"%string) then Return URGENT_CONVERSION
  else if bool_decide (key = "returning_user"%string) then Return RETURNING_USER
  else if bool_decide (key = "bulk_purchase"%string) then Return BULK_PURCHASE
  else if bool_decide (key = "vip_discount"%string) then Return VIP_DISCOUNT
  else Raise ValueError.
End DiscountOptionType.

(** class DiscountOption(BaseModel): [min_discount] and [max_discount] lie
    in [0, 1], and [validate_discount_range] wants [max_discount] no
    smaller than [min_discount]. *)
Module DiscountOption.
Record t := {
  option_type : DiscountOptionType.t;
  option_name : string;
  discount_type : DiscountType.t;
  min_discount : Decimal;
  max_discount : Decimal;
  description : string;
  is_active : bool
}.

Definition init (option_type : DiscountOptionType.t)
    (option_name discount_type min_discount max_discount description : pyval)
    : result t :=
  match option_name, DiscountType.of_value discount_type,
        min_discount, max_discount, description with
  | PStr name, Some ty, PNum lo, PNum hi, PStr descr =>
      if bool_decide (0 ≤ lo)%Qc && bool_decide (lo ≤ 1)%Qc
         && bool_decide (0 ≤ hi)%Qc && bool_decide (hi ≤ 1)%Qc
         && negb (bool_decide (hi < lo)%Qc)
      then Return {| option_type := option_type; option_name := name;
                     discount_type := ty; min_discount := lo;
                     max_discount := hi; description := descr;
                     is_active := true |}
      else Raise (ValidationError "DiscountOption")
  | _, _, _, _, _ => Raise (ValidationError "DiscountOption")
  end.
End DiscountOption.

Module discount_options.

(** DISCOUNT_OPTIONS_CONFIG: one dict per category, each with exactly the
    six keys below. *)
Definition category (option_name : string) (min_discount max_discount : Decimal)
    (description prompt_guidance : string) : list (string * pyval) :=
  [("option_name", PStr option_name);
   ("discount_type", PStr "percentage");
   ("min_discount", PNum min_discount);
   ("max_discount", PNum max_discount);
   ("description", PStr description);
   ("prompt_guidance", PStr prompt_guidance)]%string.

Definition DISCOUNT_OPTIONS_CONFIG : list (string * list (string * pyval)) :=
  [("new_user",
    category "新用户首购折扣" (dec 1 10) (dec 3 10)
      "针对新用户的首次购买优惠，可根据用户意向强度调整"
      "新用户且学习意向强烈时使用，通常给15-25%折扣");
   ("urgent_conversion",
    category "紧急转化折扣" (dec 15 100) (dec 4 10)
      "针对高紧迫度用户的转化优惠，力度可较大"
      "用户紧迫度>=4且预算充足时使用，可给20-35%折扣");
   ("returning_user",
    category "老用户回购折扣" (dec 5 100) (dec 2 10)
      "针对已购买过课程用户的复购优惠"
      "老用户复购时使用，根据历史购买金额调整5-15%折扣");
   ("bulk_purchase",
    category "批量购买折扣" (dec 1 10) (dec 25 100)
      "购买多门课程时的批量优惠"
      "购买2门以上课程时使用，课程越多折扣越大");
   ("vip_discount",
    category "VIP专享折扣" (dec 2 10) (dec 5 10)
      "针对高价值用户的专享优惠，折扣力度最大"
      "识别为高价值用户或特殊情况时使用，需谨慎")]%string.







End discount_options.

(** ** [app/repositories/discount_repository.py] *)

Module DiscountRepository.

(** What an instance of [DiscountRepository] has: the session set by
    [__init__] and the methods the class defines.  The class has no base
    class. *)
Definition attributes : list string :=
  ["db"; "create_applied_discount"; "get_user_active_discounts";
   "get_best_discount_for_user"; "_calculate_discount_amount";
   "use_discount"; "get_user_discount_history";
   "get_discount_effectiveness_stats"; "clean_expired_discounts";
   "get_agent_discount_patterns"; "to_model"]%string.

(** [timedelta(hours=n)], with [datetime] in seconds. *)
Definition hours (n : Z) : Z := n * 3600.

(** [self.db.add(db_discount); await self.db.flush()]: the INSERT, which
    fails on a column declared [nullable=False] that holds no value. *)
Definition add_and_flush (db_discount : AppliedDiscountDB.t) (now : datetime)
    : db AppliedDiscountDB.t :=
  let row := AppliedDiscountDB.with_defaults now db_discount in
  if AppliedDiscountDB.insertable row then
    s ← tables;
    set_tables
      {| courses := courses s; coupons := coupons s;
         coupon_usage := coupon_usage s;
         applied_discounts := applied_discounts s ++ [row];
         discount_usage_history := discount_usage_history s |};;
    mret row
  else lift (Raise IntegrityError).

(** The constructor is called with the keywords [course_id] and
    [order_id], whatever their values. *)
Definition create_applied_discount (user_id discount_type : string)
    (discount_value : Decimal) (course_id order_id agent_reasoning : option string)
    (valid_until : option datetime) (now : datetime) : db AppliedDiscountDB.t :=
  let valid_until := default (now + hours 24) valid_until in
  db_discount ←
    lift (declarative_init AppliedDiscountDB.columns
      ["user_id"; "discount_type"; "discount_value"; "course_id"; "order_id";
       "agent_reasoning"; "valid_until"; "is_used"]%string
      {| AppliedDiscountDB.discount_id := None;
         AppliedDiscountDB.user_id := user_id;
         AppliedDiscountDB.option_type := None;
         AppliedDiscountDB.discount_type := discount_type;
         AppliedDiscountDB.discount_value := discount_value;
         AppliedDiscountDB.applicable_course_ids := None;
         AppliedDiscountDB.original_amount := None;
         AppliedDiscountDB.discount_amount := None;
         AppliedDiscountDB.final_amount := None;
         AppliedDiscountDB.agent_reasoning := agent_reasoning;
         AppliedDiscountDB.created_by := None;
         AppliedDiscountDB.valid_until := Some valid_until;
         AppliedDiscountDB.is_used := Some false;
         AppliedDiscountDB.used_at := None;
         AppliedDiscountDB.created_at := None |});
  add_and_flush db_discount now.

(** The three conditions every call of [get_user_active_discounts] has;
    a comparison with NULL selects no row. *)
Definition active_for (user_id : string) (now : datetime)
    (r : AppliedDiscountDB.t) : bool :=
  bool_decide (AppliedDiscountDB.user_id r = user_id)
  && bool_decide (AppliedDiscountDB.is_used r = Some false)
  && match AppliedDiscountDB.valid_until r with
     | Some valid_until => bool_decide (now < valid_until)
     | None => false
     end.

(** [if course_id:] holds for a course id that is neither [None] nor
    empty; the condition it adds reads [AppliedDiscountDB.course_id]. *)
Definition course_condition (course_id : option string)
    : result (AppliedDiscountDB.t → bool) :=
  match course_id with
  | Some c =>
      if bool_decide (c = EmptyString) then Return (λ _, true)
      else
        column ← getattr AppliedDiscountDB.columns "course_id"
                   (None : option (AppliedDiscountDB.t → option string));
        mret (λ r, bool_decide (column r = Some c)
                   || bool_decide (column r = None))
  | None => Return (λ _, true)
  end.

Definition get_user_active_discounts (user_id : string)
    (course_id : option string) (now : datetime)
    : db (list AppliedDiscountDB.t) :=
  for_course ← lift (course_condition course_id);
  s ← tables;
  mret (order_by_desc AppliedDiscountDB.discount_value
          (filter (λ r, active_for user_id now r && for_course r = true)
                  (applied_discounts s))).

Definition _calculate_discount_amount (discount : AppliedDiscountDB.t)
    (order_amount : Decimal) : Decimal :=
  if bool_decide (AppliedDiscountDB.discount_type discount = "percentage"%string)
  then (order_amount * (AppliedDiscountDB.discount_value discount / Qc_of_Z 100))%Qc
  else if bool_decide (AppliedDiscountDB.discount_type discount
                       = "fixed_amount"%string)
  then py_min (AppliedDiscountDB.discount_value discount) order_amount
  else 0%Qc.

(** [if order_amount:] is false for [None] and for zero. *)
Definition get_best_discount_for_user (user_id : string)
    (course_id : option string) (order_amount : option Decimal) (now : datetime)
    : db (option AppliedDiscountDB.t) :=
  discounts ← get_user_active_discounts user_id course_id now;
  match discounts with
  | [] => mret None
  | d :: rest =>
      match Decimal_truthy order_amount with
      | Some order_amount =>
          mret (Some (max_by (λ d, _calculate_discount_amount d order_amount)
                             d rest))
      | None => mret (Some (max_by AppliedDiscountDB.discount_value d rest))
      end
  end.

(** [update(AppliedDiscountDB).where(...).values(is_used=True,
    used_at=now, order_id=order_id, updated_at=now)]; the value is
    [result.rowcount]. *)
Definition mark_used_where (condition : AppliedDiscountDB.t → bool)
    (now : datetime) : db Z :=
  lift (values AppliedDiscountDB.columns
          ["is_used"; "used_at"; "order_id"; "updated_at"]%string);;
  s ← tables;
  set_tables
    {| courses := courses s; coupons := coupons s;
       coupon_usage := coupon_usage s;
       applied_discounts :=
         (λ r, if condition r then AppliedDiscountDB.mark_used now r else r)
           <$> applied_discounts s;
       discount_usage_history := discount_usage_history s |};;
  mret (Z.of_nat (length (filter (λ r, condition r = true)
                                 (applied_discounts s)))).

(** [self.get]: the lookup of the attribute [get] on the repository. *)
Definition self_get : result (Z → db AppliedDiscountDB.t) :=
  getattr attributes "get" None.

(** [self.db.add(usage_history)] *)
Definition add_history (h : DiscountUsageHistoryDB.t) : db unit :=
  s ← tables;
  set_tables
    {| courses := courses s; coupons := coupons s;
       coupon_usage := coupon_usage s;
       applied_discounts := applied_discounts s;
       discount_usage_history := discount_usage_history s ++ [h] |}.

(** The [where] clause reads [AppliedDiscountDB.id] while the statement is
    being built, before anything is sent to the database. *)
Definition use_discount (discount_id : Z) (order_id : string)
    (actual_discount_amount : Decimal) (now : datetime) : db bool :=
  try_except
    (id ← lift (getattr AppliedDiscountDB.columns "id"
                  (None : option (AppliedDiscountDB.t → Z)));
     rowcount ←
       mark_used_where
         (λ r, bool_decide (id r = discount_id)
               && bool_decide (AppliedDiscountDB.is_used r = Some false))
         now;
     if bool_decide (rowcount = 0) then mret false
     else
       get ← lift self_get;
       row ← get discount_id;
       usage_history ←
         lift (declarative_init DiscountUsageHistoryDB.columns
           ["applied_discount_id"; "user_id"; "order_id"; "discount_amount";
            "used_at"]%string
           {| DiscountUsageHistoryDB.history_id := None;
              DiscountUsageHistoryDB.user_id := AppliedDiscountDB.user_id row;
              DiscountUsageHistoryDB.discount_id := None;
              DiscountUsageHistoryDB.order_id := Some order_id;
              DiscountUsageHistoryDB.option_type := None;
              DiscountUsageHistoryDB.discount_amount := actual_discount_amount;
              DiscountUsageHistoryDB.course_ids := None;
              DiscountUsageHistoryDB.created_by := None;
              DiscountUsageHistoryDB.used_at := Some now |});
       add_history usage_history;;
       mret true)
    (mret false).

End DiscountRepository.

(** ** [app/repositories/course_repository.py] *)

Module CourseRepository.

Definition get_by_course_id (course_id : string) : db (option CourseDB.t) :=
  s ← tables;
  lift (scalar_one_or_none
          (filter (λ r, CourseDB.course_id r = course_id) (courses s))).

End CourseRepository.

(** ** [app/services/price_calculator_service.py] *)

(** The parts [_generate_option_reasoning] joins with "，", and the
    reasoning of the option without discount. *)
Inductive reasoning_part :=
| KeepPrice                     (* "保持原价，适用于价格不敏感或高价值感知的用户" *)
| Offer (description : pyval)   (* f"提供{option['description']}" *)
| PriceSensitive                (* "用户对价格敏感" *)
| StrongIntent                  (* "用户购买意愿较强" *)
| Saves (amount : Decimal).     (* f"可节省{discount_amount}元" *)

(** An entry of [discount_options]: a dict with these keys ([category] on
    the entries that come from the catalog).  [estimated_discount] and
    [final_amount] hold the amount [float(...)] is applied to. *)
Module AgentOption.
Record t := {
  type : pyval;
  value : pyval;
  description : pyval;
  estimated_discount : Decimal;
  final_amount : Decimal;
  recommendation_score : float;
  reasoning : list reasoning_part;
  category : option string
}.
End AgentOption.

(** The dict [calculate_price_with_options] returns. *)
Module PriceAnalysis.
Record t := {
  base_calculation : PriceCalculation.t;
  discount_options : list AgentOption.t;
  recommended_option : option AgentOption.t;
  agent_guidance : list (string * pyval);
  user_profile_factors : list (string * pyval)
}.
End PriceAnalysis.

Module PriceCalculatorService.

(** [not user_profile]: [None] or the empty dict. *)
Definition no_profile (user_profile : option (list (string * pyval))) : bool :=
  match user_profile with
  | Some (_ :: _) => false
  | _ => true
  end.

(** [user_profile.get(key, default)] on a profile that is there. *)
Definition profile_get (user_profile : option (list (string * pyval)))
    (key : string) (default_value : pyval) : pyval :=
  default default_value (dict_get (default [] user_profile) key).

(** [max(0, min(1, base_score))] *)
Definition clamp (base_score : float) : float :=
  let m := if (base_score <? 1)%float then base_score else 1%float in
  if (0 <? m)%float then m else 0%float.

(** [for option in v]: a list gives its items, a string its characters, a
    dict its keys; [option["type"]] then wants a dict ([opt] below is the
    loop variable [option]). *)
Definition iterate (v : pyval) : result (list pyval) :=
  match v with
  | PList l => Return l
  | PStr s => Return ((λ c, PStr (String c EmptyString)) <$> list_ascii_of_string s)
  | PDict d => Return ((λ kv, PStr kv.1) <$> d)
  | _ => Raise TypeError
  end.
Definition item (opt : pyval) (key : string) : result pyval :=
  match opt with
  | PDict d => dict_item d key
  | _ => Raise TypeError
  end.

Definition _should_offer_category (category : string)
    (user_profile : option (list (string * pyval))) (courses : list CourseDB.t)
    : result bool :=
  if no_profile user_profile then mret true
  else if bool_decide (category = "new_user"%string)
          && truthy (profile_get user_profile "is_new_user" (PBool true))
  then mret true
  else if bool_decide (category = "price_sensitive"%string)
          && eq_str (profile_get user_profile "price_sensitivity" PNone) "high"
  then mret true
  else
    loyal ←
      (if bool_decide (category = "loyalty"%string)
       then gt_int (profile_get user_profile "purchase_history_count" (PNum 0%Qc)) 2
       else mret false);
    if (loyal : bool) then mret true
    else if bool_decide (category = "bulk_purchase"%string)
            && bool_decide (2 ≤ length courses)%nat
    then mret true
    else if bool_decide (category = "general"%string) then mret true
    else mret false.

Definition _calculate_discount_amount (opt : pyval) (base_amount : Decimal)
    : result Decimal :=
  ty ← item opt "type";
  if eq_str ty "percentage" then
    v ← item opt "value";
    d ← Decimal_of_str v;
    mret (base_amount * (d / Qc_of_Z 100))%Qc
  else if eq_str ty "fixed_amount" then
    v ← item opt "value";
    d ← Decimal_of_str v;
    mret (py_min d base_amount)
  else mret 0%Qc.

Definition _calculate_option_score (opt : pyval)
    (user_profile : option (list (string * pyval))) (base_amount : Decimal)
    : result float :=
  let base_score := 0.5%float in
  if no_profile user_profile then mret base_score
  else
    let price_sensitivity :=
      profile_get user_profile "price_sensitivity" (PStr "medium") in
    let base_score :=
      if eq_str price_sensitivity "high" then (base_score + 0.3)%float
      else if eq_str price_sensitivity "low" then (base_score - 0.2)%float
      else base_score in
    discount_amount ← _calculate_discount_amount opt base_amount;
    let discount_percentage :=
      if bool_decide (0 < base_amount)%Qc
      then (discount_amount / base_amount * Qc_of_Z 100)%Qc else 0%Qc in
    let base_score :=
      if bool_decide (Qc_of_Z 10 ≤ discount_percentage)%Qc
         && bool_decide (discount_percentage ≤ Qc_of_Z 25)%Qc
      then (base_score + 0.2)%float
      else if bool_decide (Qc_of_Z 30 < discount_percentage)%Qc
      then (base_score - 0.1)%float
      else base_score in
    mret (clamp base_score).

Definition _calculate_no_discount_score
    (user_profile : option (list (string * pyval))) : float :=
  if no_profile user_profile then 0.3%float
  else
    let base_score := 0.3%float in
    let base_score :=
      if eq_str (profile_get user_profile "price_sensitivity" PNone) "low"
      then (base_score + 0.4)%float
      else if eq_str (profile_get user_profile "price_sensitivity" PNone) "high"
      then (base_score - 0.2)%float
      else base_score in
    let base_score :=
      if eq_str (profile_get user_profile "value_perception" PNone) "high"
      then (base_score + 0.2)%float else base_score in
    clamp base_score.

Definition _generate_option_reasoning (opt : pyval)
    (user_profile : option (list (string * pyval))) (discount_amount : Decimal)
    : result (list reasoning_part) :=
  description ← item opt "description";
  let reasoning_parts := [Offer description] in
  reasoning_parts ←
    (if no_profile user_profile then mret reasoning_parts
     else
       let reasoning_parts :=
         if eq_str (profile_get user_profile "price_sensitivity" PNone) "high"
         then reasoning_parts ++ [PriceSensitive] else reasoning_parts in
       urgent ← ge_int (profile_get user_profile "urgency_level" (PNum 0%Qc)) 4;
       mret (if (urgent : bool) then reasoning_parts ++ [StrongIntent]
             else reasoning_parts));
  mret (reasoning_parts ++ [Saves discount_amount]).

(** [options.sort(key=lambda x: x["recommendation_score"], reverse=True)]:
    stable, the larger score first. *)
Fixpoint insert_by_score (x : AgentOption.t) (sorted : list AgentOption.t)
    : list AgentOption.t :=
  match sorted with
  | [] => [x]
  | y :: rest =>
      if (AgentOption.recommendation_score y
          <? AgentOption.recommendation_score x)%float
      then x :: y :: rest
      else y :: insert_by_score x rest
  end.
Definition sort_by_score (options : list AgentOption.t) : list AgentOption.t :=
  fold_left (λ sorted x, insert_by_score x sorted) options [].

(** The body of [for option in config["options"]]. *)
Definition option_entry (category : string) (opt : pyval)
    (user_profile : option (list (string * pyval))) (base_amount : Decimal)
    : result (list AgentOption.t) :=
  discount_amount ← _calculate_discount_amount opt base_amount;
  if bool_decide (0 < discount_amount)%Qc then
    ty ← item opt "type";
    value ← item opt "value";
    description ← item opt "description";
    score ← _calculate_option_score opt user_profile base_amount;
    reasoning ← _generate_option_reasoning opt user_profile discount_amount;
    mret [{| AgentOption.type := ty;
             AgentOption.value := value;
             AgentOption.description := description;
             AgentOption.estimated_discount := discount_amount;
             AgentOption.final_amount := (base_amount - discount_amount)%Qc;
             AgentOption.recommendation_score := score;
             AgentOption.reasoning := reasoning;
             AgentOption.category := Some category |}]
  else mret [].

Fixpoint option_entries (category : string) (options : list pyval)
    (user_profile : option (list (string * pyval))) (base_amount : Decimal)
    : result (list AgentOption.t) :=
  match options with
  | [] => mret []
  | opt :: rest =>
      entry ← option_entry category opt user_profile base_amount;
      entries ← option_entries category rest user_profile base_amount;
      mret (entry ++ entries)
  end.

(** The loop [for category, config in DISCOUNT_OPTIONS_CONFIG.items()]. *)
Fixpoint catalog_entries (catalog : list (string * list (string * pyval)))
    (user_profile : option (list (string * pyval))) (courses : list CourseDB.t)
    (base_amount : Decimal) : result (list AgentOption.t) :=
  match catalog with
  | [] => mret []
  | (category, config) :: rest =>
      offered ← _should_offer_category category user_profile courses;
      entries ←
        (if (offered : bool) then
           options ← dict_item config "options";
           options ← iterate options;
           option_entries category options user_profile base_amount
         else mret []);
      others ← catalog_entries rest user_profile courses base_amount;
      mret (entries ++ others)
  end.

Definition no_discount_option
    (user_profile : option (list (string * pyval))) (base_amount : Decimal)
    : AgentOption.t :=
  {| AgentOption.type := PStr "none";
     AgentOption.value := PNum 0%Qc;
     AgentOption.description := PStr "不提供额外折扣";
     AgentOption.estimated_discount := 0%Qc;
     AgentOption.final_amount := base_amount;
     AgentOption.recommendation_score := _calculate_no_discount_score user_profile;
     AgentOption.reasoning := [KeepPrice];
     AgentOption.category := None |}.

Definition _get_discount_options_for_agent (user_id : string)
    (courses : list CourseDB.t) (base_amount : Decimal)
    (user_profile : option (list (string * pyval)))
    : result (list AgentOption.t) :=
  let options := [no_discount_option user_profile base_amount] in
  entries ← catalog_entries discount_options.DISCOUNT_OPTIONS_CONFIG
              user_profile courses base_amount;
  mret (sort_by_score (options ++ entries)).

(** [max(options, key=lambda x: x["recommendation_score"])]: the first of
    the entries with the largest score. *)
Definition _select_recommended_option (options : list AgentOption.t)
    (user_profile : option (list (string * pyval))) (base_amount : Decimal)
    : option AgentOption.t :=
  match options with
  | [] => None
  | x :: rest =>
      Some (fold_left
              (λ best y,
                 if (AgentOption.recommendation_score best
                     <? AgentOption.recommendation_score y)%float
                 then y else best)
              rest x)
  end.

(** _get_courses: the ids that resolve, in the order asked. *)
Fixpoint _get_courses (course_ids : list string) : db (list CourseDB.t) :=
  match course_ids with
  | [] => mret []
  | course_id :: rest =>
      course ← CourseRepository.get_by_course_id course_id;
      courses ← _get_courses rest;
      mret (match course with Some c => c :: courses | None => courses end)
  end.

(** [sum(course.current_price for course in courses)] *)
Definition sum_current_price (courses : list CourseDB.t) : Decimal :=
  fold_left (λ acc c, (acc + CourseDB.current_price c)%Qc) courses 0%Qc.

(** The list comprehension that builds the items. *)
Fixpoint order_items (courses : list CourseDB.t) : result (list OrderItem.t) :=
  match courses with
  | [] => mret []
  | course :: rest =>
      i ← OrderItem.init
             {| OrderItem.course_id := CourseDB.course_id course;
                OrderItem.course_name := CourseDB.course_name course;
                OrderItem.original_price := CourseDB.current_price course;
                OrderItem.discount_price := CourseDB.current_price course;
                OrderItem.quantity := 1;
                OrderItem.subtotal := CourseDB.current_price course |};
      others ← order_items rest;
      mret (i :: others)
  end.

(** [if coupon_code:] is false for [None] and for the empty string. *)
Definition given (coupon_code : option string) : option string :=
  match coupon_code with
  | Some EmptyString => None
  | c => c
  end.

Definition _calculate_base_price (courses : list CourseDB.t) (user_id : string)
    (coupon_code : option string) (now : datetime) : db PriceCalculation.t :=
  let original_total := sum_current_price courses in
  coupon_discount ←
    match given coupon_code with
    | Some coupon_code =>
        validation ← CouponRepository.validate_coupon_for_user
                       coupon_code user_id original_total None now;
        if CouponValidation.is_valid validation
        then lift (getattr CouponValidation.fields "discount_amount" None)
        else mret 0%Qc
    | None => mret 0%Qc
    end;
  items ← lift (order_items courses);
  let final_total := (original_total - coupon_discount)%Qc in
  lift (PriceCalculation.init
    {| PriceCalculation.original_total := original_total;
       PriceCalculation.discount_total := coupon_discount;
       PriceCalculation.final_total := final_total;
       PriceCalculation.coupon_discount := coupon_discount;
       PriceCalculation.auto_discount := 0%Qc;
       PriceCalculation.items := items |}).

Definition _extract_pricing_factors
    (user_profile : option (list (string * pyval))) : list (string * pyval) :=
  if no_profile user_profile then [("status", PStr "无用户画像数据")]%string
  else
    [("price_sensitivity",
      profile_get user_profile "price_sensitivity" (PStr "unknown"));
     ("budget_range", profile_get user_profile "budget_range" (PStr "unknown"));
     ("urgency_level", profile_get user_profile "urgency_level" (PNum 0%Qc));
     ("purchase_history",
      profile_get user_profile "purchase_history_count" (PNum 0%Qc));
     ("discount_response",
      profile_get user_profile "discount_response" (PStr "unknown"))]%string.

Definition _generate_agent_guidance (base_calculation : PriceCalculation.t)
    (options : list AgentOption.t)
    (user_profile : option (list (string * pyval))) : list (string * pyval) :=
  let considerations :=
    [PStr "考虑用户价格敏感度"; PStr "平衡优惠力度与利润";
     PStr "注意用户体验和满意度"] in
  let considerations :=
    if no_profile user_profile then considerations
    else if eq_str (profile_get user_profile "price_sensitivity" PNone) "high"
    then considerations ++ [PStr "该用户价格敏感，适当优惠有助于成交"]
    else if eq_str (profile_get user_profile "price_sensitivity" PNone) "low"
    then considerations ++ [PStr "该用户价格不敏感，可适当减少折扣保持利润"]
    else considerations in
  [("user_context", PDict (_extract_pricing_factors user_profile));
   ("recommendation", PStr "根据用户画像分析，建议选择得分最高的折扣方案");
   ("considerations", PList considerations)]%string.

Definition _empty_price_calculation : result PriceCalculation.t :=
  PriceCalculation.init
    {| PriceCalculation.original_total := 0%Qc;
       PriceCalculation.discount_total := 0%Qc;
       PriceCalculation.final_total := 0%Qc;
       PriceCalculation.coupon_discount := 0%Qc;
       PriceCalculation.auto_discount := 0%Qc;
       PriceCalculation.items := [] |}.

Definition _empty_price_result : result PriceAnalysis.t :=
  base_calculation ← _empty_price_calculation;
  mret {| PriceAnalysis.base_calculation := base_calculation;
          PriceAnalysis.discount_options := [];
          PriceAnalysis.recommended_option := None;
          PriceAnalysis.agent_guidance := [("error", PStr "未找到有效课程")]%string;
          PriceAnalysis.user_profile_factors := [] |}.

Definition calculate_price_with_options (course_ids : list string)
    (user_id : string) (user_profile : option (list (string * pyval)))
    (coupon_code : option string) (now : datetime) : db PriceAnalysis.t :=
  courses ← _get_courses course_ids;
  match courses with
  | [] => lift _empty_price_result
  | _ =>
      base_calculation ← _calculate_base_price courses user_id coupon_code now;
      discount_options ←
        lift (_get_discount_options_for_agent user_id courses
                (PriceCalculation.original_total base_calculation) user_profile);
      let recommended_option :=
        _select_recommended_option discount_options user_profile
          (PriceCalculation.original_total base_calculation) in
      mret {| PriceAnalysis.base_calculation := base_calculation;
              PriceAnalysis.discount_options := discount_options;
              PriceAnalysis.recommended_option := recommended_option;
              PriceAnalysis.agent_guidance :=
                _generate_agent_guidance base_calculation discount_options
                  user_profile;
              PriceAnalysis.user_profile_factors :=
                _extract_pricing_factors user_profile |}
  end.

(** [discount_type=selected_discount["type"]]: the column holds a string. *)
Definition as_str (v : pyval) : result string :=
  match v with
  | PStr s => Return s
  | _ => Raise TypeError
  end.

(** The lines "计算实际折扣金额" of [apply_agent_discount_decision]. *)
Definition agent_discount_amount (selected_discount : list (string * pyval))
    (original_total : Decimal) : result Decimal :=
  ty ← dict_item selected_discount "type";
  if eq_str ty "percentage" then
    v ← dict_item selected_discount "value";
    d ← Decimal_of_str v;
    mret (original_total * (d / Qc_of_Z 100))%Qc
  else if eq_str ty "fixed_amount" then
    v ← dict_item selected_discount "value";
    d ← Decimal_of_str v;
    mret (py_min d original_total)
  else mret 0%Qc.

Definition apply_agent_discount_decision (user_id : string)
    (course_ids : list string) (selected_discount : list (string * pyval))
    (agent_reasoning : string) (coupon_code : option string) (now : datetime)
    : db PriceCalculation.t :=
  courses ← _get_courses course_ids;
  match courses with
  | [] => lift _empty_price_calculation
  | _ =>
      base_calculation ← _calculate_base_price courses user_id coupon_code now;
      agent_discount ←
        (if truthy (PDict selected_discount)
            && negb (eq_str (default PNone (dict_get selected_discount "type"))
                            "none")
         then
           ty ← lift (dict_item selected_discount "type");
           v ← lift (dict_item selected_discount "value");
           discount_value ← lift (Decimal_of_str v);
           discount_type ← lift (as_str ty);
           discount_db ← DiscountRepository.create_applied_discount
                           user_id discount_type discount_value None None
                           (Some agent_reasoning) None now;
           lift (agent_discount_amount selected_discount
                   (PriceCalculation.original_total base_calculation))
         else mret 0%Qc);
      let total_discount :=
        (PriceCalculation.coupon_discount base_calculation + agent_discount)%Qc in
      let final_total :=
        py_max (PriceCalculation.original_total base_calculation - total_discount)%Qc
               0%Qc in
      lift (PriceCalculation.init
        {| PriceCalculation.original_total :=
             PriceCalculation.original_total base_calculation;
           PriceCalculation.discount_total := total_discount;
           PriceCalculation.final_total := final_total;
           PriceCalculation.coupon_discount :=
             PriceCalculation.coupon_discount base_calculation;
           PriceCalculation.auto_discount := agent_discount;
           PriceCalculation.items := PriceCalculation.items base_calculation |})
  end.

End PriceCalculatorService.

(** ** [app/services/order_service.py] *)

Module OrderService.

(** calculate_order_price.  Its loop over [course_ids], its list of
    [OrderItem] and its [PriceCalculation] of zeros for no course are those
    of [_get_courses], [_calculate_base_price] and
    [_empty_price_calculation]; [coupon_code and user_id] wants both given. *)
Definition calculate_order_price (course_ids : list string)
    (user_id coupon_code : option string) (apply_auto_discount : bool)
    (now : datetime) : db PriceCalculation.t :=
  courses ← PriceCalculatorService._get_courses course_ids;
  match courses with
  | [] => lift PriceCalculatorService._empty_price_calculation
  | _ =>
      let original_total := PriceCalculatorService.sum_current_price courses in
      coupon_discount ←
        match PriceCalculatorService.given coupon_code,
              PriceCalculatorService.given user_id with
        | Some coupon_code, Some user_id =>
            validation ← CouponRepository.validate_coupon_for_user
                           coupon_code user_id original_total None now;
            if CouponValidation.is_valid validation
            then lift (getattr CouponValidation.fields "discount_amount" None)
            else mret 0%Qc
        | _, _ => mret 0%Qc
        end;
      auto_discount ←
        match (if apply_auto_discount then PriceCalculatorService.given user_id
               else None) with
        | Some user_id =>
            best_discount ← DiscountRepository.get_best_discount_for_user
                              user_id None (Some original_total) now;
            match best_discount with
            | Some best_discount =>
                if bool_decide (AppliedDiscountDB.discount_type best_discount
                                = "percentage"%string)
                then mret (original_total
                           * (AppliedDiscountDB.discount_value best_discount
                              / Qc_of_Z 100))%Qc
                else if bool_decide (AppliedDiscountDB.discount_type best_discount
                                     = "fixed_amount"%string)
                then mret (py_min (AppliedDiscountDB.discount_value best_discount)
                                  original_total)
                else mret 0%Qc
            | None => mret 0%Qc
            end
        | None => mret 0%Qc
        end;
      let total_discount := (coupon_discount + auto_discount)%Qc in
      let final_total := py_max (original_total - total_discount)%Qc 0%Qc in
      items ← lift (PriceCalculatorService.order_items courses);
      lift (PriceCalculation.init
        {| PriceCalculation.original_total := original_total;
           PriceCalculation.discount_total := total_discount;
           PriceCalculation.final_total := final_total;
           PriceCalculation.coupon_discount := coupon_discount;
           PriceCalculation.auto_discount := auto_discount;
           PriceCalculation.items := items |})
  end.

End OrderService.

(** ** [app/services/coupon_service.py] *)

Module CouponService.
Section cache.

(** [self.cache.delete_pattern]: the cache of the service is a Redis client
    outside the store; the operation answers the number of keys it
    removed. *)
Variable delete_pattern : string → db Z.

Definition validate_coupon_for_user (coupon_code user_id : string)
    (order_amount : Decimal) (now : datetime) : db CouponValidation.t :=
  CouponRepository.validate_coupon_for_user coupon_code user_id order_amount
    None now.

(** [for pattern in patterns: await self.cache.delete_pattern(pattern)] *)
Fixpoint delete_patterns (patterns : list string) : db unit :=
  match patterns with
  | [] => mret tt
  | pattern :: rest => delete_pattern pattern;; delete_patterns rest
  end.

(** _clear_coupon_caches, with [cache_prefix] = "coupon". *)
Definition _clear_coupon_caches (coupon_code user_id : option string) : db unit :=
  let patterns := ["coupon:valid:*"; "coupon:expiring:*"]%string in
  let patterns :=
    match PriceCalculatorService.given coupon_code with
    | Some coupon_code => patterns ++ ["coupon:code:" +:+ coupon_code]
    | None => patterns
    end in
  let patterns :=
    match PriceCalculatorService.given user_id with
    | Some user_id =>
        patterns ++ ["coupon:user:" +:+ user_id +:+ ":*";
                     "coupon:history:" +:+ user_id +:+ ":*"]
    | None => patterns
    end in
  delete_patterns patterns.

(** use_coupon: the validation is asked with [discount_amount] as the
    order amount, and [validation.coupon_id] is read from the result. *)
Definition use_coupon (coupon_code user_id order_id : string)
    (discount_amount : Decimal) (fresh_id : string) (now : datetime) : db bool :=
  validation ← validate_coupon_for_user coupon_code user_id discount_amount now;
  if negb (CouponValidation.is_valid validation) then mret false
  else
    coupon_id ← lift (getattr CouponValidation.fields "coupon_id" None);
    success ← CouponRepository.use_coupon coupon_id user_id order_id
                discount_amount fresh_id now;
    (if (success : bool)
     then _clear_coupon_caches (Some coupon_code) (Some user_id)
     else mret tt);;
    mret success.

End cache.
End CouponService.

Import PriceCalculatorService.

(** * The behaviour described, and sample data *)

(** ** Coupon validation as described *)

(** The arithmetic minimum. *)
Definition Qc_min (a b : Decimal) : Decimal := if decide (a ≤ b)%Qc then a else b.

(** The user's prior uses of a coupon, as the store has them. *)
Definition prior_uses (s : Store) (user_id coupon_id : string) : Z :=
  Z.of_nat (length
    (filter (λ u, CouponUsageDB.user_id u = user_id
                  ∧ CouponUsageDB.coupon_id u = coupon_id) (coupon_usage s))).

(** The validation described: the checks in their order, each with the
    error of its failure, read on the [Coupon] model; then the discount. *)
Module Described.

Definition checks (c : Coupon.t) (now : datetime) (order_amount : Decimal)
    (prior_uses : Z) : list (bool * coupon_error) :=
  [ (bool_decide (Coupon.status c = ACTIVE), CouponDeactivated);
    (bool_decide (Coupon.valid_from c ≤ now), CouponNotStarted);
    (bool_decide (now ≤ Coupon.valid_to c), CouponExpired);
    (match Coupon.usage_limit c with
     | None => true
     | Some limit => bool_decide (Coupon.used_count c < limit)
     end, CouponUsageCapReached);
    (bool_decide (Coupon.min_order_amount c ≤ order_amount)%Qc,
     OrderBelowMinimum (Coupon.min_order_amount c));
    (match Coupon.usage_limit_per_user c with
     | None => true
     | Some limit => bool_decide (prior_uses < limit)
     end, UserCapReached) ].

Fixpoint first_failure (cs : list (bool * coupon_error)) : option coupon_error :=
  match cs with
  | [] => None
  | (passed, err) :: rest => if passed then first_failure rest else Some err
  end.

(** The cap as the description states it ([max_discount] whenever it is
    set) and as the code has it (when it is set and not zero). *)
Definition cap_as_stated (c : Coupon.t) : option Decimal := Coupon.max_discount c.
Definition cap_in_force (c : Coupon.t) : option Decimal :=
  match Coupon.max_discount c with
  | Some m => if bool_decide (m = 0%Qc) then None else Some m
  | None => None
  end.

(** A fixed amount gives min(discount_value, order_amount); any other
    type gives order_amount * discount_value, capped by [cap], then by
    order_amount. *)
Definition discount (cap : option Decimal) (c : Coupon.t) (order_amount : Decimal)
    : Decimal :=
  match Coupon.coupon_type c with
  | FIXED_AMOUNT => Qc_min (Coupon.discount_value c) order_amount
  | _ =>
      let raw := (order_amount * Coupon.discount_value c)%Qc in
      let capped := match cap with Some m => Qc_min raw m | None => raw end in
      Qc_min capped order_amount
  end.

Definition failed (err : coupon_error) (c : option Coupon.t) : CouponValidation.t :=
  {| CouponValidation.is_valid := false;
     CouponValidation.validation_errors := [err];
     CouponValidation.coupon := c;
     CouponValidation.estimated_discount := Some 0%Qc;
     CouponValidation.applicable_courses := [];
     CouponValidation.min_order_required :=
       match err with OrderBelowMinimum m => Some m | _ => None end |}.

Definition validate (cap : Coupon.t → option Decimal) (found : option Coupon.t)
    (now : datetime) (order_amount : Decimal) (prior_uses : Z)
    : CouponValidation.t :=
  match found with
  | None => failed CouponNotFound None
  | Some c =>
      match first_failure (checks c now order_amount prior_uses) with
      | Some err => failed err (Some c)
      | None =>
          {| CouponValidation.is_valid := true;
             CouponValidation.validation_errors := [];
             CouponValidation.coupon := Some c;
             CouponValidation.estimated_discount :=
               Some (discount (cap c) c order_amount);
             CouponValidation.applicable_courses :=
               default [] (Coupon.applicable_courses c);
             CouponValidation.min_order_required := None |}
      end
  end.

End Described.

(** ** The ledger and the catalog *)


(** The usage row [use_coupon] writes. *)
Definition usage_row (coupon : CouponDB.t) (user_id order_id : string)
    (discount_amount : Decimal) (fresh_id : string) (now : datetime)
    : CouponUsageDB.t :=
  {| CouponUsageDB.usage_id := fresh_id;
     CouponUsageDB.coupon_id := CouponDB.coupon_id coupon;
     CouponUsageDB.coupon_code := CouponDB.coupon_code coupon;
     CouponUsageDB.user_id := user_id;
     CouponUsageDB.order_id := Some order_id;
     CouponUsageDB.course_ids := [];
     CouponUsageDB.original_amount := discount_amount;
     CouponUsageDB.discount_amount := discount_amount;
     CouponUsageDB.final_amount := 0%Qc;
     CouponUsageDB.used_at := now |}.

(** ** The categories on offer *)

(** Whether [_should_offer_category] offers some category of the catalog:
    every category without a profile; with one, [new_user] unless the
    profile says the user is not new, and [bulk_purchase] from two courses
    on.  No branch of the function names [urgent_conversion],
    [returning_user] or [vip_discount]. *)
Definition offers_some_category
    (user_profile : option (list (string * pyval))) (courses : list CourseDB.t)
    : bool :=
  no_profile user_profile
  || truthy (profile_get user_profile "is_new_user" (PBool true))
  || bool_decide (2 ≤ length courses)%nat.

(** ** Sample data *)

Definition empty_store : Store :=
  {| courses := []; coupons := []; coupon_usage := [];
     applied_discounts := []; discount_usage_history := [] |}.

(** A table of one coupon, which nobody has used. *)
Definition store_of (row : CouponDB.t) : Store :=
  {| courses := []; coupons := [row]; coupon_usage := [];
     applied_discounts := []; discount_usage_history := [] |}.

(** An active coupon, valid from 0 to 1000, used 0 times of 100, once per
    user. *)
Definition coupon_row (coupon_id coupon_code coupon_type : string)
    (discount_value min_order_amount : Decimal) (max_discount : option Decimal)
    : CouponDB.t :=
  {| CouponDB.coupon_id := coupon_id; CouponDB.coupon_code := coupon_code;
     CouponDB.coupon_name := coupon_code; CouponDB.coupon_type := coupon_type;
     CouponDB.discount_value := discount_value;
     CouponDB.min_order_amount := Some min_order_amount;
     CouponDB.max_discount := max_discount;
     CouponDB.valid_from := 0; CouponDB.valid_to := 1000;
     CouponDB.usage_limit := Some 100; CouponDB.usage_limit_per_user := Some 1;
     CouponDB.used_count := Some 0; CouponDB.applicable_courses := None;
     CouponDB.description := None; CouponDB.status := Some "active"%string;
     CouponDB.created_at := 0; CouponDB.updated_at := 0 |}.

(** Scenario A: PYTHON50, 50 off orders of at least 200. *)
Definition python50 : CouponDB.t :=
  coupon_row "c-py50" "PYTHON50" "fixed_amount" (dec 50 1) (dec 200 1) None.

(** Scenario D: 20% off, at most 50. *)
Definition capped_coupon : CouponDB.t :=
  coupon_row "c-cap" "SAVE20" "percentage" (dec 20 100) 0%Qc (Some (dec 50 1)).

(** 20% off, with a [max_discount] of zero. *)
Definition zero_cap_coupon : CouponDB.t :=
  coupon_row "c-zero" "ZEROCAP" "percentage" (dec 20 100) 0%Qc (Some 0%Qc).

(** 50 off, with a [max_discount] of 30. *)
Definition fixed_over_cap : CouponDB.t :=
  coupon_row "c-fixed" "FIXED50" "fixed_amount" (dec 50 1) 0%Qc (Some (dec 30 1)).



(** An inactive coupon whose row the [Coupon] model refuses: a percentage
    of 1.5. *)
Definition broken_coupon : CouponDB.t :=
  {| CouponDB.coupon_id := "c-broken"; CouponDB.coupon_code := "BROKEN";
     CouponDB.coupon_name := "broken"; CouponDB.coupon_type := "percentage";
     CouponDB.discount_value := dec 15 10; CouponDB.min_order_amount := Some 0%Qc;
     CouponDB.max_discount := None; CouponDB.valid_from := 0;
     CouponDB.valid_to := 1000; CouponDB.usage_limit := Some 5;
     CouponDB.usage_limit_per_user := None; CouponDB.used_count := Some 0;
     CouponDB.applicable_courses := None; CouponDB.description := None;
     CouponDB.status := Some "inactive"%string; CouponDB.created_at := 0;
     CouponDB.updated_at := 0 |}.

(** 20% off, for a single use in all. *)
Definition single_use_coupon : CouponDB.t :=
  {| CouponDB.coupon_id := "c-once"; CouponDB.coupon_code := "ONCE";
     CouponDB.coupon_name := "once"; CouponDB.coupon_type := "percentage";
     CouponDB.discount_value := dec 20 100; CouponDB.min_order_amount := Some 0%Qc;
     CouponDB.max_discount := None; CouponDB.valid_from := 0;
     CouponDB.valid_to := 1000; CouponDB.usage_limit := Some 1;
     CouponDB.usage_limit_per_user := None; CouponDB.used_count := Some 0;
     CouponDB.applicable_courses := None; CouponDB.description := None;
     CouponDB.status := Some "active"%string; CouponDB.created_at := 0;
     CouponDB.updated_at := 0 |}.

(** WELCOME100 as [scripts/create_offer_tables.py] inserts it (100 off
    orders of at least 500, for 30 days): the statement lists neither
    [used_count] nor [status], which stay NULL. *)
Definition welcome100 : CouponDB.t :=
  {| CouponDB.coupon_id := "welcome_2024"; CouponDB.coupon_code := "WELCOME100";
     CouponDB.coupon_name := "新用户欢迎券";
     CouponDB.coupon_type := "fixed_amount";
     CouponDB.discount_value := dec 100 1;
     CouponDB.min_order_amount := Some (dec 500 1);
     CouponDB.max_discount := Some (dec 100 1); CouponDB.valid_from := 0;
     CouponDB.valid_to := 30 * 86400; CouponDB.usage_limit := Some 1000;
     CouponDB.usage_limit_per_user := Some 1; CouponDB.used_count := None;
     CouponDB.applicable_courses := None;
     CouponDB.description := Some "新用户专享100元优惠券"%string;
     CouponDB.status := None; CouponDB.created_at := 0;
     CouponDB.updated_at := 0 |}.

(** A ledger with one pending record of user u1, valid until 86400. *)
Definition pending_discount : AppliedDiscountDB.t :=
  {| AppliedDiscountDB.discount_id := Some "d1"%string;
     AppliedDiscountDB.user_id := "u1";
     AppliedDiscountDB.option_type := Some "new_user"%string;
     AppliedDiscountDB.discount_type := "percentage";
     AppliedDiscountDB.discount_value := dec 15 100;
     AppliedDiscountDB.applicable_course_ids := Some ["course-a"%string];
     AppliedDiscountDB.original_amount := Some (dec 500 1);
     AppliedDiscountDB.discount_amount := Some (dec 75 1);
     AppliedDiscountDB.final_amount := Some (dec 425 1);
     AppliedDiscountDB.agent_reasoning := None;
     AppliedDiscountDB.created_by := Some "agent"%string;
     AppliedDiscountDB.valid_until := Some 86400;
     AppliedDiscountDB.is_used := Some false;
     AppliedDiscountDB.used_at := None;
     AppliedDiscountDB.created_at := Some 0 |}.

Definition ledger_store : Store :=
  {| courses := []; coupons := []; coupon_usage := [];
     applied_discounts := [pending_discount]; discount_usage_history := [] |}.

Definition course (course_id : string) (price : Decimal) : CourseDB.t :=
  {| CourseDB.course_id := course_id; CourseDB.course_name := course_id;
     CourseDB.category := "python"; CourseDB.original_price := price;
     CourseDB.current_price := price; CourseDB.status := "active" |}.

(** Scenario E: one course of 299.00 and a price-sensitive user. *)
Definition scenario_E_store : Store :=
  {| courses := [course "course-a" (dec 299 1)]; coupons := [];
     coupon_usage := []; applied_discounts := [];
     discount_usage_history := [] |}.

Definition price_sensitive : option (list (string * pyval)) :=
  Some [("price_sensitivity", PStr "high")]%string.

(** Scenario F: two courses whose current prices sum to 500.00, and the
    selected discount of type "percentage" and value 0.15. *)
Definition scenario_F_store : Store :=
  {| courses := [course "course-a" (dec 200 1); course "course-b" (dec 300 1)];
     coupons := []; coupon_usage := []; applied_discounts := [];
     discount_usage_history := [] |}.

Definition fifteen_percent : list (string * pyval) :=
  [("type", PStr "percentage"); ("value", PNum (dec 15 100))]%string.

(** * Properties *)

Ltac db_unfold :=
  unfold mbind, mret, db_bind, db_ret, result_bind, result_ret, lift, tables,
    set_tables, try_except in *.

(** Equalities between computed decimals: equal as fractions, hence equal. *)
Ltac decimals :=
  first
    [ reflexivity
    | apply Qc_is_canon; reflexivity
    | simpl; f_equal; apply Qc_is_canon; reflexivity
    | simpl; do 2 f_equal; apply Qc_is_canon; reflexivity
    | vm_compute; f_equal; apply Qc_is_canon; reflexivity ].

(** Comparisons of string literals, evaluated. *)
Ltac string_tests :=
  repeat match goal with
  | |- context [bool_decide (@eq string ?a ?b)] =>
      let v := eval vm_compute in (bool_decide (a = b)) in
      change (bool_decide (a = b)) with v
  end.

(** ** Coupon validation reads, and only reads *)

Lemma validate_reads_only code user amount t now s :
  (CouponRepository.validate_coupon_for_user code user amount t now s).2 = s.
Proof.
  unfold CouponRepository.validate_coupon_for_user,
    CouponRepository.get_by_coupon_code,
    CouponRepository.get_user_coupon_usage_count, CouponRepository.rejected.
  db_unfold.
  destruct (scalar_one_or_none _) as [[row|]|e]; simpl; try reflexivity.
  destruct (CouponRepository.to_model row) as [m|e]; simpl; try reflexivity.
  repeat (case_match; simplify_eq; simpl; try reflexivity).
Qed.

(** C9. Two calls of [validate_coupon_for_user] with the same coupon code,
    user, order amount and reference time, run one after the other on a
    store, leave every table as it was and return the same result (the same
    validation, or the same exception). *)
Theorem C9_validation_is_deterministic_and_read_only
    code user amount t now s :
  let first := CouponRepository.validate_coupon_for_user code user amount t now s in
  let second :=
    CouponRepository.validate_coupon_for_user code user amount t now first.2 in
  first.2 = s ∧ second.2 = s ∧ second.1 = first.1.
Proof.
  intros first second. subst second.
  assert (first.2 = s) as Hs by apply validate_reads_only.
  rewrite Hs. split; [done|]. split; [apply validate_reads_only | done].
Qed.

(** ** Using a coupon *)

(** Rows and their keys: a key of no row selects nothing, and where the
    key is unique a row splits the table into the rows before it and the
    rows after it, none of which has its key. *)
Lemma filter_key_absent {A : Type} (key : A → string) (rows : list A) k :
  k ∉ (key <$> rows) → filter (λ r, key r = k) rows = [].
Proof.
  induction rows as [|r rows IH]; intros Hk; [done|].
  rewrite fmap_cons in Hk. apply not_elem_of_cons in Hk as [Hne Hk].
  rewrite filter_cons, decide_False by done. by apply IH.
Qed.

Lemma unique_key_split {A : Type} (key : A → string) (rows : list A) row :
  NoDup (key <$> rows) → row ∈ rows →
  ∃ before after,
    rows = before ++ row :: after
    ∧ (key row ∉ (key <$> before))
    ∧ (key row ∉ (key <$> after)).
Proof.
  intros Hnd Hin. apply list_elem_of_split in Hin as (before & after & ->).
  exists before, after. split; [done|].
  rewrite fmap_app, fmap_cons in Hnd.
  apply list.NoDup_app in Hnd as (_ & Hdisj & Hnd).
  apply list.NoDup_cons in Hnd as [Hafter _]. split; [|done].
  intros Hb. apply (Hdisj _ Hb). left.
Qed.

Lemma filter_key_unique {A : Type} (key : A → string) (rows : list A) row :
  NoDup (key <$> rows) → row ∈ rows →
  filter (λ r, key r = key row) rows = [row].
Proof.
  intros Hnd Hin.
  destruct (unique_key_split key rows row Hnd Hin)
    as (before & after & -> & Hb & Ha).
  rewrite list.filter_app, filter_cons, decide_True by done.
  by rewrite !filter_key_absent by done.
Qed.





(** ** The applied-discount ledger *)

Lemma repository_has_no_get :
  DiscountRepository.self_get = Raise (AttributeError "get").
Proof. reflexivity. Qed.

(** The class [AppliedDiscountDB] has no attribute [id]. *)
Lemma AppliedDiscountDB_has_no_id {A : Type} (value : option A) :
  getattr AppliedDiscountDB.columns "id" value = Raise (AttributeError "id").
Proof. by destruct value. Qed.

(** [use_discount] fails while it builds its first statement: nothing is
    sent to the database, and the [except] clause answers [False]. *)
Lemma use_discount_changes_nothing discount_id order_id amount now s :
  DiscountRepository.use_discount discount_id order_id amount now s
  = (Return false, s).
Proof.
  unfold DiscountRepository.use_discount. db_unfold.
  by rewrite AppliedDiscountDB_has_no_id.
Qed.

(** C4. [use_discount] returns [False] on every store and for every
    discount id, order id and amount, and appends no usage-history row:
    the [where] clause reads [AppliedDiscountDB.id], which the mapped class
    does not have, so an [AttributeError] is raised before the update is
    sent, and the [except] clause answers [False].  (Further down, the
    history row could not be built either: [self.get] is no attribute of
    the repository.) *)
Theorem C4_use_discount_never_returns_true
    (s : Store) (discount_id : Z) (order_id : string)
    (actual_discount_amount : Decimal) (now : datetime) :
  let outcome :=
    DiscountRepository.use_discount discount_id order_id
      actual_discount_amount now s in
  outcome.1 = Return false
  ∧ discount_usage_history outcome.2 = discount_usage_history s.
Proof. cbv zeta. by rewrite use_discount_changes_nothing. Qed.




(** ** Coupon validation against its description *)

Lemma py_min_is_min a b : py_min a b = Qc_min a b.
Proof.
  unfold py_min, Qc_min. repeat case_decide; try done.
  - exfalso. by apply (Qclt_not_le b a).
  - exfalso. apply Qcnot_le_lt in H0. done.
Qed.

Lemma Qc_min_le_l a b : (Qc_min a b ≤ a)%Qc.
Proof.
  unfold Qc_min. case_decide; [apply Qcle_refl|].
  apply Qclt_le_weak. by apply Qcnot_le_lt.
Qed.

Lemma Qc_min_le_r a b : (Qc_min a b ≤ b)%Qc.
Proof. unfold Qc_min. case_decide; [done | apply Qcle_refl]. Qed.

Lemma to_model_Return row c :
  CouponRepository.to_model row = Return c →
  Coupon.valid c = true
  ∧ CouponType_of (CouponDB.coupon_type row) = Some (Coupon.coupon_type c)
  ∧ CouponDB.status row ≫= CouponStatus_of = Some (Coupon.status c)
  ∧ Coupon.discount_value c = CouponDB.discount_value row
  ∧ CouponDB.min_order_amount row = Some (Coupon.min_order_amount c)
  ∧ Coupon.max_discount c = CouponDB.max_discount row
  ∧ Coupon.valid_from c = CouponDB.valid_from row
  ∧ Coupon.valid_to c = CouponDB.valid_to row
  ∧ Coupon.usage_limit c = CouponDB.usage_limit row
  ∧ Coupon.usage_limit_per_user c = CouponDB.usage_limit_per_user row
  ∧ CouponDB.used_count row = Some (Coupon.used_count c)
  ∧ Coupon.applicable_courses c
    = Some (default [] (CouponDB.applicable_courses row)).
Proof.
  unfold CouponRepository.to_model.
  destruct (CouponType_of _) as [ty|]; [|done].
  destruct (CouponDB.status row ≫= CouponStatus_of) as [st|]; [|done].
  destruct (CouponDB.min_order_amount row) as [min_order_amount|]; [|done].
  destruct (CouponDB.used_count row) as [used_count|]; [|done].
  destruct (Coupon.valid _) eqn:Hv; [|done].
  intros [= <-]. by repeat split.
Qed.

Lemma status_active row c :
  CouponDB.status row ≫= CouponStatus_of = Some (Coupon.status c) →
  bool_decide (CouponDB.status row = Some "active"%string)
  = bool_decide (Coupon.status c = ACTIVE).
Proof.
  destruct (CouponDB.status row) as [status|]; [|done]. cbn.
  unfold CouponStatus_of. intros H.
  repeat case_bool_decide; simplify_eq; congruence.
Qed.

Lemma type_fixed row c :
  CouponType_of (CouponDB.coupon_type row) = Some (Coupon.coupon_type c) →
  bool_decide (CouponDB.coupon_type row = "fixed_amount"%string)
  = bool_decide (Coupon.coupon_type c = FIXED_AMOUNT).
Proof.
  unfold CouponType_of. intros H.
  repeat case_bool_decide; simplify_eq; congruence.
Qed.

Lemma limit_truthy (limit : option Z) :
  opt_all (λ n, bool_decide (1 ≤ n)) limit = true → int_truthy limit = limit.
Proof.
  destruct limit as [n|]; [|done]. simpl. intros H%bool_decide_eq_true.
  by rewrite bool_decide_eq_false_2 by lia.
Qed.

Lemma Z_lt_le_negb (a b : Z) : bool_decide (a < b) = negb (bool_decide (b ≤ a)).
Proof. repeat case_bool_decide; simpl; try done; lia. Qed.

Lemma Z_le_lt_negb (a b : Z) : bool_decide (a ≤ b) = negb (bool_decide (b < a)).
Proof. repeat case_bool_decide; simpl; try done; lia. Qed.

Lemma Qc_lt_le_negb (a b : Decimal) :
  bool_decide (a < b)%Qc = negb (bool_decide (b ≤ a)%Qc).
Proof.
  repeat case_bool_decide; simpl; try done.
  - exfalso. by apply (Qclt_not_le a b).
  - exfalso. apply H0. by apply Qcnot_lt_le.
Qed.

Lemma discount_amount_of_described row c order_amount :
  CouponRepository.to_model row = Return c →
  CouponRepository.discount_amount_of row order_amount
  = Described.discount (Described.cap_in_force c) c order_amount.
Proof.
  intros (_ & Hty & _ & Hv & _ & Hmax & _)%to_model_Return.
  unfold CouponRepository.discount_amount_of, Described.discount,
    Described.cap_in_force, Decimal_truthy.
  rewrite (type_fixed _ _ Hty), Hmax, Hv, <- !py_min_is_min.
  destruct (Coupon.coupon_type c); simpl; try done;
    destruct (CouponDB.max_discount row) as [m|]; try done;
    case_bool_decide; by rewrite <- ?py_min_is_min.
Qed.

Ltac validate_tail s user amount row c Happ :=
  rewrite Qc_lt_le_negb;
  destruct (bool_decide (Coupon.min_order_amount c ≤ amount)%Qc);
    [|reflexivity];
  cbn beta iota delta [negb]; rewrite Happ;
  let ulimit := fresh "ulimit" in
  destruct (Coupon.usage_limit_per_user c) as [ulimit|]; [|reflexivity];
  unfold CouponRepository.get_user_coupon_usage_count; db_unfold;
  cbn beta iota delta [negb];
  fold (prior_uses s user (CouponDB.coupon_id row));
  rewrite (Z_le_lt_negb ulimit);
  by destruct (bool_decide (prior_uses s user (CouponDB.coupon_id row) < ulimit)).

(** What [validate_coupon_for_user] does, case by case: it raises when the
    code matches several rows or the row is no valid [Coupon], and behaves
    as described otherwise; it never writes. *)
Lemma validate_outcome code user amount t now s :
  CouponRepository.validate_coupon_for_user code user amount t now s
  = (match scalar_one_or_none
             (filter (λ r, CouponDB.coupon_code r = code) (coupons s)) with
     | Raise e => Raise e
     | Return None =>
         Return (Described.validate Described.cap_in_force None
                   (default now t) amount 0)
     | Return (Some row) =>
         match CouponRepository.to_model row with
         | Raise e => Raise e
         | Return c =>
             Return (Described.validate Described.cap_in_force (Some c)
                       (default now t) amount
                       (prior_uses s user (CouponDB.coupon_id row)))
         end
     end, s).
Proof.
  unfold CouponRepository.validate_coupon_for_user,
    CouponRepository.get_by_coupon_code.
  db_unfold.
  destruct (scalar_one_or_none _) as [[row|]|e]; try reflexivity.
  destruct (CouponRepository.to_model row) as [c|e] eqn:Hc; [|reflexivity].
  cbn beta iota.
  rewrite (discount_amount_of_described _ _ _ Hc).
  apply to_model_Return in Hc
    as (Hvalid & Hty & Hst & Hv & Hmin & Hmax & Hfrom & Hto & Hlim & Huser
        & Hused & Happ).
  unfold Coupon.valid in Hvalid.
  repeat (apply andb_prop in Hvalid as [Hvalid ?]).
  unfold Described.validate, Described.checks, Described.first_failure.
  rewrite (status_active _ _ Hst), <- Hfrom, <- Hto, Hmin, Hused.
  rewrite <- Hlim, <- Huser, !limit_truthy by done.
  rewrite (Z_lt_le_negb (default now t)), (Z_lt_le_negb (Coupon.valid_to c)).
  destruct (bool_decide (Coupon.status c = ACTIVE)); [|reflexivity].
  destruct (bool_decide (Coupon.valid_from c ≤ default now t)); [|reflexivity].
  destruct (bool_decide (default now t ≤ Coupon.valid_to c)); [|reflexivity].
  cbn beta iota delta [negb operand].
  destruct (Coupon.usage_limit c) as [limit|].
  - cbn beta iota. rewrite (Z_le_lt_negb limit).
    destruct (bool_decide (Coupon.used_count c < limit)); [|reflexivity].
    cbn beta iota delta [negb].
    validate_tail s user amount row c Happ.
  - cbn beta iota. validate_tail s user amount row c Happ.
Qed.

(** C3, as stated, fails: on a percentage coupon whose [max_discount] is
    set to zero the discount is not capped by [max_discount].  An order of
    100 gets a discount of 20, where the cap as stated leaves 0. *)
Lemma C3_max_discount_of_zero_is_no_cap :
  ∃ v c,
    (CouponRepository.validate_coupon_for_user "ZEROCAP" "u1" (dec 100 1)
       None 50 (store_of zero_cap_coupon)).1 = Return v
    ∧ CouponValidation.is_valid v = true
    ∧ CouponValidation.coupon v = Some c
    ∧ Coupon.max_discount c = Some 0%Qc
    ∧ CouponValidation.estimated_discount v = Some (dec 20 1)
    ∧ Described.discount (Described.cap_as_stated c) c (dec 100 1) = 0%Qc.
Proof.
  eexists _, _. split; [vm_compute; reflexivity|].
  repeat split; decimals.
Qed.

(** C3, amended.  [validate_coupon_for_user] writes nothing, and its
    result depends on the rows that carry the code.  With no such row it
    returns "not found".  With one, it first converts that row to a
    [Coupon], and raises what the conversion raises when the row is no
    valid [Coupon]; otherwise it returns the validation described: the
    error of the first failing check among status active,
    now >= valid_from, now <= valid_to, usage_limit unset or
    used_count < usage_limit, order_amount >= min_order_amount (with the
    required minimum), usage_limit_per_user unset or the user's prior uses
    < usage_limit_per_user; and when all pass, the discount
    min(discount_value, order_amount) of a fixed amount, or
    order_amount * discount_value capped by [max_discount] when that is
    set and not zero, then capped by order_amount.  With several rows it
    raises [MultipleResultsFound]. *)
Theorem C3_validation_follows_the_described_checks
    (s : Store) (code user : string) (amount : Decimal)
    (t : option datetime) (now : datetime) :
  let found := filter (λ r, CouponDB.coupon_code r = code) (coupons s) in
  let outcome :=
    CouponRepository.validate_coupon_for_user code user amount t now s in
  (found = [] →
     outcome = (Return (Described.validate Described.cap_in_force None
                          (default now t) amount 0), s))
  ∧ (∀ row, found = [row] →
       match CouponRepository.to_model row with
       | Return c =>
           outcome
           = (Return (Described.validate Described.cap_in_force (Some c)
                        (default now t) amount
                        (prior_uses s user (CouponDB.coupon_id row))), s)
       | Raise e => outcome = (Raise e, s)
       end)
  ∧ (∀ row row' rows, found = row :: row' :: rows →
       outcome = (Raise MultipleResultsFound, s)).
Proof.
  intros found outcome. subst found outcome.
  rewrite validate_outcome. repeat split.
  - by intros ->.
  - intros row ->. cbn [scalar_one_or_none].
    by destruct (CouponRepository.to_model row).
  - by intros row row' rows ->.
Qed.

(** Scenarios A and B on the table of PYTHON50: an order of 300 gets 50
    off, an order of 100 is refused for the minimum of 200.  On the table
    of WELCOME100 as the setup script inserts it, the row is no valid
    [Coupon] (it has no status and no used_count) and the call raises. *)
Lemma C3_witness :
  (∃ v, (CouponRepository.validate_coupon_for_user "PYTHON50" "u1" (dec 300 1)
           None 50 (store_of python50)).1 = Return v
        ∧ CouponValidation.is_valid v = true
        ∧ CouponValidation.estimated_discount v = Some (dec 50 1))
  ∧ (∃ v, (CouponRepository.validate_coupon_for_user "PYTHON50" "u1" (dec 100 1)
             None 50 (store_of python50)).1 = Return v
          ∧ CouponValidation.is_valid v = false
          ∧ CouponValidation.validation_errors v = [OrderBelowMinimum (dec 200 1)]
          ∧ CouponValidation.min_order_required v = Some (dec 200 1))
  ∧ CouponRepository.validate_coupon_for_user "WELCOME100" "u1" (dec 600 1)
      None 50 (store_of welcome100)
    = (Raise (ValidationError "Coupon"), store_of welcome100).
Proof.
  split; [|split].
  - destruct (C3_validation_follows_the_described_checks (store_of python50)
                "PYTHON50" "u1" (dec 300 1) None 50) as (_ & Hfound & _).
    specialize (Hfound python50 eq_refl).
    destruct (CouponRepository.to_model python50) as [c|e] eqn:Hc;
      [|discriminate Hc].
    rewrite Hfound. vm_compute in Hc. injection Hc as <-.
    eexists. split; [reflexivity|]. split; decimals.
  - destruct (C3_validation_follows_the_described_checks (store_of python50)
                "PYTHON50" "u1" (dec 100 1) None 50) as (_ & Hfound & _).
    specialize (Hfound python50 eq_refl).
    destruct (CouponRepository.to_model python50) as [c|e] eqn:Hc;
      [|discriminate Hc].
    rewrite Hfound. vm_compute in Hc. injection Hc as <-.
    eexists. split; [reflexivity|]. repeat split; decimals.
  - destruct (C3_validation_follows_the_described_checks (store_of welcome100)
                "WELCOME100" "u1" (dec 600 1) None 50) as (_ & Hfound & _).
    exact (Hfound welcome100 eq_refl).
Defined.

Lemma python50_is_a_Coupon :
  ∃ c, CouponRepository.to_model python50 = Return c.
Proof. eexists. vm_compute. reflexivity. Qed.

(** ** Bounds on the coupon discount *)

Lemma described_discount_le_amount cap c amount :
  (Described.discount cap c amount ≤ amount)%Qc.
Proof. unfold Described.discount. destruct (Coupon.coupon_type c); apply Qc_min_le_r. Qed.

Lemma described_discount_le_cap c amount m :
  Coupon.coupon_type c ≠ FIXED_AMOUNT →
  (Described.discount (Some m) c amount ≤ m)%Qc.
Proof.
  intros Hty. unfold Described.discount.
  destruct (Coupon.coupon_type c); try done;
    (eapply Qcle_trans; [apply Qc_min_le_l | apply Qc_min_le_r]).
Qed.

Lemma valid_max_discount_nonneg c m :
  Coupon.valid c = true → Coupon.max_discount c = Some m → (0 ≤ m)%Qc.
Proof.
  unfold Coupon.valid. intros Hvalid Hm.
  repeat (apply andb_prop in Hvalid as [Hvalid ?]).
  rewrite Hm in *. simpl in *.
  match goal with
  | H : bool_decide (_ ≤ m)%Qc = true |- _ => by apply bool_decide_eq_true in H
  end.
Qed.

Lemma calculate_discount_bounds c amount :
  Coupon.valid c = true → (0 ≤ amount)%Qc →
  (Coupon.calculate_discount c amount ≤ amount)%Qc
  ∧ ∀ m, Coupon.max_discount c = Some m → m ≠ 0%Qc →
         (Coupon.calculate_discount c amount ≤ m)%Qc.
Proof.
  intros Hvalid Hamount. unfold Coupon.calculate_discount. split.
  - case_bool_decide; [done|]. rewrite py_min_is_min. apply Qc_min_le_r.
  - intros m Hm Hne. case_bool_decide; [by eapply valid_max_discount_nonneg|].
    rewrite Hm. unfold Decimal_truthy. rewrite bool_decide_eq_false_2 by done.
    rewrite py_min_is_min. eapply Qcle_trans; [apply Qc_min_le_l|].
    case_bool_decide; [apply Qcle_refl | by apply Qcnot_lt_le].
Qed.

Lemma validate_discount_bounds s code user amount t now v :
  (0 ≤ amount)%Qc →
  (CouponRepository.validate_coupon_for_user code user amount t now s).1
  = Return v →
  ∃ d, CouponValidation.estimated_discount v = Some d
       ∧ (d ≤ amount)%Qc
       ∧ ∀ c m, CouponValidation.coupon v = Some c →
                Coupon.coupon_type c ≠ FIXED_AMOUNT →
                Coupon.max_discount c = Some m → m ≠ 0%Qc → (d ≤ m)%Qc.
Proof.
  intros Hamount. rewrite validate_outcome. cbn [fst].
  destruct (scalar_one_or_none _) as [[row|]|e]; try done.
  - destruct (CouponRepository.to_model row) as [c|e] eqn:Hc; [|done].
    apply to_model_Return in Hc as (Hvalid & _).
    unfold Described.validate.
    destruct (Described.first_failure _) as [err|]; intros [= <-].
    + exists 0%Qc. split; [done|]. split; [done|].
      intros c' m [= <-] _ Hm _. by eapply valid_max_discount_nonneg.
    + eexists. split; [done|]. split; [apply described_discount_le_amount|].
      intros c' m [= <-] Hty Hm Hne. unfold Described.cap_in_force.
      rewrite Hm, bool_decide_eq_false_2 by done.
      by apply described_discount_le_cap.
  - intros [= <-]. exists 0%Qc. split; [done|]. split; [done|]. by intros c m [=].
Qed.

(** C7, as stated, fails: [validate_coupon_for_user] does not apply
    [max_discount] to a fixed-amount coupon.  With a fixed amount of 50 and
    a [max_discount] of 30, an order of 100 gets a discount of 50. *)
Lemma C7_fixed_amount_ignores_max_discount :
  ∃ v c,
    (CouponRepository.validate_coupon_for_user "FIXED50" "u1" (dec 100 1)
       None 50 (store_of fixed_over_cap)).1 = Return v
    ∧ CouponValidation.coupon v = Some c
    ∧ Coupon.max_discount c = Some (dec 30 1)
    ∧ CouponValidation.estimated_discount v = Some (dec 50 1)
    ∧ ¬ (dec 50 1 ≤ dec 30 1)%Qc.
Proof.
  eexists _, _. split; [vm_compute; reflexivity|].
  repeat split; try decimals. by vm_compute.
Qed.

(** C7, amended.  For every valid coupon and order amount >= 0,
    [Coupon.calculate_discount] is at most the order amount and, when
    [max_discount] is set and not zero, at most [max_discount].  The
    discount [validate_coupon_for_user] estimates is at most the order
    amount and, for a coupon that is not a fixed amount whose
    [max_discount] is set and not zero, at most [max_discount].  20% with a
    [max_discount] of 50 on an order of 1000 gives 50 (200 capped), final
    950. *)
Theorem C7_discount_bounds :
  (∀ c amount, Coupon.valid c = true → (0 ≤ amount)%Qc →
     (Coupon.calculate_discount c amount ≤ amount)%Qc
     ∧ ∀ m, Coupon.max_discount c = Some m → m ≠ 0%Qc →
            (Coupon.calculate_discount c amount ≤ m)%Qc)
  ∧ (∀ s code user amount t now v, (0 ≤ amount)%Qc →
       (CouponRepository.validate_coupon_for_user code user amount t now s).1
       = Return v →
       ∃ d, CouponValidation.estimated_discount v = Some d
            ∧ (d ≤ amount)%Qc
            ∧ ∀ c m, CouponValidation.coupon v = Some c →
                     Coupon.coupon_type c ≠ FIXED_AMOUNT →
                     Coupon.max_discount c = Some m → m ≠ 0%Qc → (d ≤ m)%Qc)
  ∧ (∃ v c,
       (CouponRepository.validate_coupon_for_user "SAVE20" "u1" (dec 1000 1)
          None 50 (store_of capped_coupon)).1 = Return v
       ∧ CouponValidation.coupon v = Some c
       ∧ (dec 1000 1 * Coupon.discount_value c = dec 200 1)%Qc
       ∧ CouponValidation.estimated_discount v = Some (dec 50 1)
       ∧ Coupon.calculate_discount c (dec 1000 1) = dec 50 1
       ∧ (dec 1000 1 - dec 50 1 = dec 950 1)%Qc).
Proof.
  split; [exact calculate_discount_bounds|].
  split; [exact validate_discount_bounds|].
  eexists _, _. split; [vm_compute; reflexivity|].
  repeat split; decimals.
Qed.

(** The bounds at Scenario D. *)
Lemma C7_witness :
  ∃ c, CouponRepository.to_model capped_coupon = Return c
       ∧ Coupon.valid c = true
       ∧ (0 ≤ dec 1000 1)%Qc
       ∧ (Coupon.calculate_discount c (dec 1000 1) ≤ dec 1000 1)%Qc
       ∧ (Coupon.calculate_discount c (dec 1000 1) ≤ dec 50 1)%Qc.
Proof.
  eexists. split; [vm_compute; reflexivity|].
  assert (0 ≤ dec 1000 1)%Qc as Hamount by (by vm_compute).
  match goal with |- Coupon.valid ?c = true ∧ _ =>
    assert (Coupon.valid c = true) as Hvalid by (by vm_compute);
    destruct C7_discount_bounds as [Hbounds _];
    destruct (Hbounds c (dec 1000 1) Hvalid Hamount) as [Hle Hcap]
  end.
  split; [exact Hvalid|]. split; [exact Hamount|]. split; [exact Hle|].
  apply Hcap; [reflexivity | by vm_compute].
Defined.

(** ** The price calculator *)

Lemma get_by_course_id_reads_only course_id s :
  (CourseRepository.get_by_course_id course_id s).2 = s.
Proof. unfold CourseRepository.get_by_course_id. db_unfold. done. Qed.

Lemma get_courses_reads_only course_ids s :
  (_get_courses course_ids s).2 = s.
Proof.
  revert s. induction course_ids as [|course_id rest IH]; intros s; [done|].
  cbn [_get_courses]. db_unfold.
  pose proof (get_by_course_id_reads_only course_id s) as Hget.
  destruct (CourseRepository.get_by_course_id course_id s) as [[course|e] s1];
    simpl in Hget; subst s1; [|done].
  specialize (IH s).
  destruct (_get_courses rest s) as [[courses|e] s2]; simpl in IH; by subst s2.
Qed.

Lemma order_items_raises course rest :
  order_items (course :: rest) = Raise (ValidationError "OrderItem").
Proof. reflexivity. Qed.

Lemma empty_price_calculation_raises :
  _empty_price_calculation = Raise (ValidationError "PriceCalculation").
Proof. reflexivity. Qed.

(** [_calculate_base_price] never returns: a valid coupon stops at
    [validation.discount_amount], any other call at the construction of the
    first [OrderItem] or, without courses, of the [PriceCalculation]. *)
Lemma calculate_base_price_raises courses user_id coupon_code now s :
  ∃ e, _calculate_base_price courses user_id coupon_code now s = (Raise e, s).
Proof.
  unfold _calculate_base_price. db_unfold.
  assert (∃ e,
    (let (r, s') := lift (order_items courses) s in
     match r with
     | Return items =>
         lift (PriceCalculation.init
           {| PriceCalculation.original_total := sum_current_price courses;
              PriceCalculation.discount_total := 0%Qc;
              PriceCalculation.final_total := (sum_current_price courses - 0)%Qc;
              PriceCalculation.coupon_discount := 0%Qc;
              PriceCalculation.auto_discount := 0%Qc;
              PriceCalculation.items := items |}) s'
     | Raise e => (Raise e, s')
     end) = (Raise e, s)) as Hitems.
  { destruct courses; eexists; reflexivity. }
  destruct (given coupon_code) as [code|]; [|exact Hitems].
  pose proof (validate_reads_only code user_id (sum_current_price courses)
                None now s) as Hs.
  destruct (CouponRepository.validate_coupon_for_user _ _ _ _ _ _)
    as [[v|e] s1]; simpl in Hs; subst s1; [|by eexists].
  destruct (CouponValidation.is_valid v); [by eexists | exact Hitems].
Qed.

(** C5. With a coupon code given, [_calculate_base_price] calls the
    validator with the sum of the current prices; when the validation
    succeeds it raises [AttributeError]: the validator puts its amount in
    [estimated_discount], and [discount_amount], which the calculator
    reads, is no field of [CouponValidation].  When the validation fails
    the coupon discount stays 0 and the errors are dropped, and the call
    stops at the first [OrderItem], which lacks required fields. *)
Theorem C5_base_price_with_coupon_raises
    (courses : list CourseDB.t) (user_id code : string) (now : datetime)
    (s : Store) (v : CouponValidation.t) :
  code ≠ EmptyString →
  (CouponRepository.validate_coupon_for_user code user_id
     (sum_current_price courses) None now s).1 = Return v →
  (CouponValidation.is_valid v = true →
     _calculate_base_price courses user_id (Some code) now s
     = (Raise (AttributeError "discount_amount"), s))
  ∧ (CouponValidation.is_valid v = false → courses ≠ [] →
     _calculate_base_price courses user_id (Some code) now s
     = (Raise (ValidationError "OrderItem"), s)).
Proof.
  intros Hcode Hv. unfold _calculate_base_price. db_unfold.
  assert (given (Some code) = Some code) as -> by (by destruct code).
  pose proof (validate_reads_only code user_id (sum_current_price courses)
                None now s) as Hs.
  destruct (CouponRepository.validate_coupon_for_user _ _ _ _ _ _)
    as [r s1]; simpl in Hs, Hv; subst s1 r.
  split; intros ->; [reflexivity|].
  intros Hcourses. by destruct courses.
Qed.

(** Scenario A inside the price calculator: one course of 300 and the
    coupon PYTHON50, which is valid for it. *)
Lemma C5_witness :
  "PYTHON50"%string ≠ EmptyString
  ∧ (∃ v, (CouponRepository.validate_coupon_for_user "PYTHON50" "u1"
             (sum_current_price [course "course-a" (dec 300 1)]) None 50
             (store_of python50)).1 = Return v
          ∧ CouponValidation.is_valid v = true
          ∧ CouponValidation.estimated_discount v = Some (dec 50 1))
  ∧ _calculate_base_price [course "course-a" (dec 300 1)] "u1"
      (Some "PYTHON50"%string) 50 (store_of python50)
    = (Raise (AttributeError "discount_amount"), store_of python50).
Proof.
  assert ("PYTHON50"%string ≠ EmptyString) as Hcode by done.
  split; [exact Hcode|].
  destruct ((CouponRepository.validate_coupon_for_user "PYTHON50" "u1"
               (sum_current_price [course "course-a" (dec 300 1)]) None 50
               (store_of python50)).1) as [v|e] eqn:Hv;
    [|vm_compute in Hv; discriminate].
  assert (CouponValidation.is_valid v = true) as Hvalid
    by (vm_compute in Hv; by injection Hv as <-).
  split.
  - exists v. split; [reflexivity|]. split; [exact Hvalid|].
    vm_compute in Hv. injection Hv as <-. decimals.
  - by apply (C5_base_price_with_coupon_raises
                [course "course-a" (dec 300 1)] "u1" "PYTHON50" 50
                (store_of python50) v Hcode Hv).
Defined.

(** [_get_courses] on a table where [course_id] is the key: the rows of
    the ids that resolve, in the order asked; an id of no row is dropped
    without an error. *)
Lemma filter_key_head {A : Type} (key : A → string) (rows : list A) k :
  NoDup (key <$> rows) →
  scalar_one_or_none (filter (λ r, key r = k) rows)
  = Return (head (filter (λ r, key r = k) rows)).
Proof.
  intros Hnd. destruct (decide (k ∈ key <$> rows)) as [Hin|Hout].
  - apply list_elem_of_fmap in Hin as (row & -> & Hrow).
    by rewrite filter_key_unique.
  - by rewrite filter_key_absent.
Qed.

Lemma get_courses_drops_unresolved course_ids s :
  NoDup (CourseDB.course_id <$> courses s) →
  _get_courses course_ids s
  = (Return (omap (λ course_id,
               head (filter (λ r, CourseDB.course_id r = course_id) (courses s)))
               course_ids), s).
Proof.
  intros Hnd. induction course_ids as [|course_id rest IH]; [done|].
  cbn [_get_courses]. unfold CourseRepository.get_by_course_id. db_unfold.
  rewrite (filter_key_head CourseDB.course_id) by done. rewrite IH.
  cbn [omap list_omap]. by destruct (head _).
Qed.

(** C8. When no course id resolves (the empty list included),
    [calculate_price_with_options] raises the [ValidationError] of
    [PriceCalculation], whose required fields [_empty_price_calculation]
    does not pass: no zeroed result is returned.  The store is left as it
    was. *)
Theorem C8_no_resolved_course_raises
    (course_ids : list string) (user_id : string)
    (user_profile : option (list (string * pyval)))
    (coupon_code : option string) (now : datetime) (s : Store) :
  (_get_courses course_ids s).1 = Return [] →
  calculate_price_with_options course_ids user_id user_profile coupon_code now s
  = (Raise (ValidationError "PriceCalculation"), s).
Proof.
  intros Hnone. unfold calculate_price_with_options. db_unfold.
  pose proof (get_courses_reads_only course_ids s) as Hs.
  destruct (_get_courses course_ids s) as [r s1]. simpl in Hs, Hnone.
  by subst s1 r.
Qed.

Lemma C8_witness :
  (_get_courses [] empty_store).1 = Return []
  ∧ calculate_price_with_options [] "u1" None None 0 empty_store
    = (Raise (ValidationError "PriceCalculation"), empty_store).
Proof.
  split; [reflexivity|].
  by apply (C8_no_resolved_course_raises [] "u1" None None 0 empty_store).
Defined.

(** With a course that resolves, [calculate_price_with_options] raises as
    well, and writes nothing. *)
Lemma calculate_price_with_options_raises course_ids user_id user_profile
    coupon_code now s :
  ∃ e, calculate_price_with_options course_ids user_id user_profile
         coupon_code now s = (Raise e, s).
Proof.
  unfold calculate_price_with_options. db_unfold.
  pose proof (get_courses_reads_only course_ids s) as Hs.
  destruct (_get_courses course_ids s) as [[[|c cs]|e] s1]; simpl in Hs;
    subst s1; try by eexists.
  destruct (calculate_base_price_raises (c :: cs) user_id coupon_code now s)
    as [e ->]. by eexists.
Qed.

(** No entry of the catalog has the key [options]. *)
Lemma catalog_has_no_options :
  Forall (λ entry, dict_get entry.2 "options" = None)
    discount_options.DISCOUNT_OPTIONS_CONFIG.
Proof. repeat constructor. Qed.

(** C1. [_get_discount_options_for_agent] returns a list only when no
    category of the catalog is offered, and the list then holds the
    "no discount" option alone.  As soon as a category is offered (always
    without a profile; [new_user] unless the profile says otherwise;
    [bulk_purchase] from two courses on) it raises [KeyError]: it reads
    [config["options"]], and no entry of the catalog has that key. *)
Theorem C1_offered_category_raises_KeyError
    (user_id : string) (courses : list CourseDB.t) (base_amount : Decimal)
    (user_profile : option (list (string * pyval))) :
  _get_discount_options_for_agent user_id courses base_amount user_profile
  = if offers_some_category user_profile courses
    then Raise (KeyError "options")
    else Return [no_discount_option user_profile base_amount].
Proof.
  unfold _get_discount_options_for_agent, offers_some_category,
    discount_options.DISCOUNT_OPTIONS_CONFIG.
  cbn [catalog_entries]. unfold _should_offer_category.
  destruct (no_profile user_profile); [reflexivity|].
  string_tests. cbn [orb andb].
  destruct (truthy _); [reflexivity|].
  destruct (bool_decide (2 ≤ length courses)%nat); reflexivity.
Qed.

(** Scenario E: one course of 299.00, no coupon, a profile with
    [price_sensitivity] "high".  The options are never listed. *)
Lemma scenario_E_raises :
  _get_discount_options_for_agent "u1" (courses scenario_E_store)
    (dec 299 1) price_sensitive
  = Raise (KeyError "options")
  ∧ calculate_price_with_options ["course-a"]%string "u1" price_sensitive
      None 0 scenario_E_store
    = (Raise (ValidationError "OrderItem"), scenario_E_store).
Proof. split; reflexivity. Qed.

(** ** Applying the agent's decision *)

(** [apply_agent_discount_decision] never returns and never writes: it
    stops in [_calculate_base_price] (or, without courses, in
    [_empty_price_calculation]) before the ledger is reached. *)
Lemma apply_agent_discount_decision_raises user_id course_ids
    selected_discount agent_reasoning coupon_code now s :
  ∃ e, apply_agent_discount_decision user_id course_ids selected_discount
         agent_reasoning coupon_code now s = (Raise e, s).
Proof.
  unfold apply_agent_discount_decision. db_unfold.
  pose proof (get_courses_reads_only course_ids s) as Hs.
  destruct (_get_courses course_ids s) as [[[|c cs]|e] s1]; simpl in Hs;
    subst s1; try by eexists.
  destruct (calculate_base_price_raises (c :: cs) user_id coupon_code now s)
    as [e ->]. by eexists.
Qed.

(** C2. On Scenario F (type "percentage", value 0.15, a base of 500.00, no
    coupon) [apply_agent_discount_decision] returns no total and persists
    no record: it raises at the first [OrderItem].  The discount its own
    arithmetic gives the selected option is 500 * (0.15 / 100) = 0.75, not
    75.00, which would leave 499.25, not 425.00. *)
Theorem C2_scenario_F_does_not_give_425 :
  apply_agent_discount_decision "u1" ["course-a"; "course-b"]%string
    fifteen_percent "agent reasoning" None 0 scenario_F_store
  = (Raise (ValidationError "OrderItem"), scenario_F_store)
  ∧ sum_current_price (courses scenario_F_store) = dec 500 1
  ∧ agent_discount_amount fifteen_percent (dec 500 1) = Return (dec 75 100)
  ∧ py_max (dec 500 1 - (0 + dec 75 100))%Qc 0%Qc = dec 49925 100
  ∧ dec 49925 100 ≠ dec 425 1.
Proof.
  split; [reflexivity|]. split; [decimals|]. split; [decimals|].
  split; [decimals|]. by vm_compute.
Qed.

(** * Further properties *)

(** ** Listing coupons and validating them *)

Lemma elem_of_order_by_desc {A : Type} (column : A → Decimal) (rows : list A) x :
  x ∈ order_by_desc column rows ↔ x ∈ rows.
Proof. unfold order_by_desc. by rewrite merge_sort_Permutation. Qed.

Lemma user_used_count_prior_uses s user id :
  match CouponRepository.user_used_count s user id with
  | None => prior_uses s user id = 0
  | Some n => n = prior_uses s user id
  end.
Proof.
  unfold CouponRepository.user_used_count, prior_uses.
  by destruct (filter _ _).
Qed.

Lemma currently_valid_checks row c t :
  CouponRepository.to_model row = Return c →
  CouponRepository.currently_valid t row = true →
  Coupon.status c = ACTIVE
  ∧ Coupon.valid_from c ≤ t ≤ Coupon.valid_to c
  ∧ ∃ limit, Coupon.usage_limit c = Some limit ∧ Coupon.used_count c < limit.
Proof.
  intros (_ & _ & Hst & _ & _ & _ & Hfrom & Hto & Hlim & _ & Hused & _)%to_model_Return.
  unfold CouponRepository.currently_valid.
  rewrite (status_active _ _ Hst), <- Hfrom, <- Hto, <- Hlim, Hused.
  intros H. repeat (apply andb_prop in H as [H ?]).
  destruct (Coupon.usage_limit c) as [limit|]; [|done].
  repeat match goal with
         | H : bool_decide _ = true |- _ => apply bool_decide_eq_true in H
         end.
  repeat split; try done. by exists limit.
Qed.

Lemma to_model_keys row c :
  CouponRepository.to_model row = Return c →
  Coupon.coupon_id c = CouponDB.coupon_id row
  ∧ Coupon.coupon_code c = CouponDB.coupon_code row.
Proof.
  unfold CouponRepository.to_model.
  destruct (CouponType_of _) as [ty|]; [|done].
  destruct (CouponDB.status row ≫= CouponStatus_of) as [st|]; [|done].
  destruct (CouponDB.min_order_amount row) as [min_order_amount|]; [|done].
  destruct (CouponDB.used_count row) as [used_count|]; [|done].
  destruct (Coupon.valid _); [|done].
  by intros [= <-].
Qed.

Lemma scalar_one_or_none_Some {A : Type} (rows : list A) row :
  scalar_one_or_none rows = Return (Some row) → rows = [row].
Proof. destruct rows as [|r [|r' rows]]; simpl; congruence. Qed.

Lemma first_failure_None c t amount uses :
  Described.first_failure (Described.checks c t amount uses) = None →
  Coupon.status c = ACTIVE
  ∧ Coupon.valid_from c ≤ t ≤ Coupon.valid_to c
  ∧ match Coupon.usage_limit c with
    | None => true
    | Some limit => bool_decide (Coupon.used_count c < limit)
    end = true
  ∧ (Coupon.min_order_amount c ≤ amount)%Qc.
Proof.
  unfold Described.checks, Described.first_failure.
  repeat (case_bool_decide; [|done]).
  destruct (match Coupon.usage_limit c with None => _ | Some _ => _ end);
    [|done].
  by case_bool_decide.
Qed.

Lemma first_failure_Some cs e :
  (false, e) ∈ cs → ∃ err, Described.first_failure cs = Some err.
Proof.
  induction cs as [|[passed err] cs IH]; intros Hin; [by apply elem_of_nil in Hin|].
  cbn. destruct passed; [|by eexists].
  apply elem_of_cons in Hin as [[=]|Hin]. by apply IH.
Qed.

Lemma Qc_min_mono a a' b b' :
  (a ≤ a')%Qc → (b ≤ b')%Qc → (Qc_min a b ≤ Qc_min a' b')%Qc.
Proof.
  intros Ha Hb. unfold Qc_min at 2. case_decide.
  - eapply Qcle_trans; [apply Qc_min_le_l | done].
  - eapply Qcle_trans; [apply Qc_min_le_r | done].
Qed.

Lemma capped_is_min (m d : Decimal) :
  (if bool_decide (m < d)%Qc then m else d) = Qc_min d m.
Proof.
  unfold Qc_min. case_bool_decide; case_decide; try done.
  - exfalso. by apply (Qclt_not_le m d).
  - exfalso. by apply H, Qcnot_le_lt.
Qed.

Lemma capped_coupon_is_a_Coupon :
  ∃ c, CouponRepository.to_model capped_coupon = Return c.
Proof. eexists. vm_compute. reflexivity. Qed.

(** X1. Where the coupon code is unique, every coupon that
    [get_user_available_coupons] lists for a user, an order amount and a
    time, and whose row is a valid [Coupon], passes
    [validate_coupon_for_user] for the same user, amount and time: the
    validation is valid, carries no error, and estimates the discount of
    that row. *)
Theorem available_coupon_passes_validation
    (s : Store) (user : string) (amount : Decimal) (t : option datetime)
    (now : datetime) (rows : list CouponDB.t) (row : CouponDB.t) (c : Coupon.t) :
  NoDup (CouponDB.coupon_code <$> coupons s) →
  (CouponRepository.get_user_available_coupons user amount t now s).1
  = Return rows →
  row ∈ rows →
  CouponRepository.to_model row = Return c →
  ∃ v,
    CouponRepository.validate_coupon_for_user (CouponDB.coupon_code row) user
      amount t now s = (Return v, s)
    ∧ CouponValidation.is_valid v = true
    ∧ CouponValidation.validation_errors v = []
    ∧ CouponValidation.coupon v = Some c
    ∧ CouponValidation.estimated_discount v
      = Some (CouponRepository.discount_amount_of row amount).
Proof.
  intros Hnd Hrows Hin Hc.
  unfold CouponRepository.get_user_available_coupons in Hrows.
  db_unfold. simpl in Hrows. injection Hrows as <-.
  apply elem_of_order_by_desc, list_elem_of_filter in Hin as [Hav Hin].
  rewrite validate_outcome, (filter_key_unique CouponDB.coupon_code) by done.
  cbn [scalar_one_or_none].
  rewrite Hc, (discount_amount_of_described _ _ _ Hc).
  unfold CouponRepository.available_to in Hav.
  apply andb_prop in Hav as [Hav Huser]. apply andb_prop in Hav as [Hval Hmin].
  destruct (currently_valid_checks _ _ _ Hc Hval)
    as (Hst & [Hfrom Hto] & limit & Hlim & Hused).
  pose proof (user_used_count_prior_uses s user (CouponDB.coupon_id row)) as Hn.
  pose proof Hc as (Hvalid & _ & _ & _ & Hm & _ & _ & _ & _ & Hper & _)%to_model_Return.
  rewrite Hm in Hmin. apply bool_decide_eq_true in Hmin.
  assert (match Coupon.usage_limit_per_user c with
          | None => true
          | Some l => bool_decide (prior_uses s user (CouponDB.coupon_id row) < l)
          end = true) as Hu.
  { unfold Coupon.valid in Hvalid.
    repeat (apply andb_prop in Hvalid as [Hvalid ?]).
    rewrite <- Hper in Huser.
    destruct (Coupon.usage_limit_per_user c) as [l|]; [|done].
    apply bool_decide_eq_true.
    destruct (CouponRepository.user_used_count _ _ _) as [n|].
    - subst n. by apply bool_decide_eq_true in Huser.
    - rewrite Hn. simpl in *.
      match goal with H : bool_decide (1 ≤ l) = true |- _ =>
        apply bool_decide_eq_true in H; lia end. }
  eexists. split; [reflexivity|].
  unfold Described.validate, Described.checks, Described.first_failure.
  rewrite Hlim, Hu.
  rewrite !bool_decide_eq_true_2 by done.
  by repeat split.
Qed.

(** The coupon of Scenario D is listed for an order of 300 and passes the
    validation. *)
Lemma available_coupon_passes_validation_witness :
  NoDup (CouponDB.coupon_code <$> coupons (store_of capped_coupon))
  ∧ (CouponRepository.get_user_available_coupons "u1" (dec 300 1) None 50
       (store_of capped_coupon)).1 = Return [capped_coupon]
  ∧ ∃ v,
      CouponRepository.validate_coupon_for_user "SAVE20" "u1" (dec 300 1) None 50
        (store_of capped_coupon) = (Return v, store_of capped_coupon)
      ∧ CouponValidation.is_valid v = true.
Proof.
  assert (NoDup (CouponDB.coupon_code <$> coupons (store_of capped_coupon)))
    as Hnd by apply NoDup_singleton.
  assert ((CouponRepository.get_user_available_coupons "u1" (dec 300 1) None 50
             (store_of capped_coupon)).1 = Return [capped_coupon]) as Hrows
    by (vm_compute; reflexivity).
  split; [exact Hnd|]. split; [exact Hrows|].
  destruct capped_coupon_is_a_Coupon as [c Hc].
  destruct (available_coupon_passes_validation (store_of capped_coupon) "u1"
              (dec 300 1) None 50 [capped_coupon] capped_coupon c Hnd Hrows)
    as (v & Hv & Hvalid & _);
    [apply list_elem_of_singleton; reflexivity | exact Hc |].
  exists v. split; [exact Hv | exact Hvalid].
Defined.

(** X2. Every coupon [get_user_available_coupons] lists is among those
    [get_valid_coupons] lists at the same time, and every coupon
    [get_valid_coupons] lists is a row of the table that is active, inside
    its validity window, and has a usage limit above its used count: a
    coupon without a usage limit is never listed, nor is one whose status
    or used count is NULL. *)
Theorem listed_coupons_have_uses_left
    (s : Store) (user : string) (amount : Decimal) (t : option datetime)
    (now : datetime) (valid available : list CouponDB.t) :
  (CouponRepository.get_valid_coupons t now s).1 = Return valid →
  (CouponRepository.get_user_available_coupons user amount t now s).1
  = Return available →
  (∀ row, row ∈ available → row ∈ valid)
  ∧ (∀ row, row ∈ valid →
       row ∈ coupons s
       ∧ CouponDB.status row = Some "active"%string
       ∧ CouponDB.valid_from row ≤ default now t ≤ CouponDB.valid_to row
       ∧ ∃ used_count limit,
           CouponDB.used_count row = Some used_count
           ∧ CouponDB.usage_limit row = Some limit
           ∧ used_count < limit).
Proof.
  unfold CouponRepository.get_valid_coupons,
    CouponRepository.get_user_available_coupons.
  db_unfold. simpl. intros [= <-] [= <-]. split.
  - intros row [Hav Hin]%elem_of_order_by_desc%list_elem_of_filter.
    apply elem_of_order_by_desc, list_elem_of_filter. split; [|done].
    unfold CouponRepository.available_to in Hav.
    apply andb_prop in Hav as [Hav _]. by apply andb_prop in Hav as [Hav _].
  - intros row [Hval Hin]%elem_of_order_by_desc%list_elem_of_filter.
    split; [done|]. unfold CouponRepository.currently_valid in Hval.
    repeat (apply andb_prop in Hval as [Hval ?]).
    destruct (CouponDB.used_count row) as [used_count|]; [|done].
    destruct (CouponDB.usage_limit row) as [limit|]; [|done].
    repeat match goal with
           | H : bool_decide _ = true |- _ => apply bool_decide_eq_true in H
           end.
    repeat split; try done. by exists used_count, limit.
Qed.

Lemma listed_coupons_have_uses_left_witness :
  (CouponRepository.get_valid_coupons None 50 (store_of capped_coupon)).1
  = Return [capped_coupon]
  ∧ (CouponRepository.get_user_available_coupons "u1" (dec 300 1) None 50
       (store_of capped_coupon)).1 = Return [capped_coupon]
  ∧ ∃ used_count limit,
      CouponDB.used_count capped_coupon = Some used_count
      ∧ CouponDB.usage_limit capped_coupon = Some limit
      ∧ used_count < limit.
Proof.
  assert ((CouponRepository.get_valid_coupons None 50 (store_of capped_coupon)).1
          = Return [capped_coupon]) as Hvalid by (vm_compute; reflexivity).
  assert ((CouponRepository.get_user_available_coupons "u1" (dec 300 1) None 50
             (store_of capped_coupon)).1 = Return [capped_coupon]) as Hrows
    by (vm_compute; reflexivity).
  split; [exact Hvalid|]. split; [exact Hrows|].
  destruct (listed_coupons_have_uses_left (store_of capped_coupon) "u1"
              (dec 300 1) None 50 _ _ Hvalid Hrows) as [_ Hlisted].
  destruct (Hlisted capped_coupon) as (_ & _ & _ & Hlimit);
    [apply list_elem_of_singleton; reflexivity | exact Hlimit].
Defined.

(** X3. A validation that [validate_coupon_for_user] returns as valid
    carries the coupon of the code asked, and that coupon satisfies
    [Coupon.is_valid] at the time of the validation; for a percentage
    coupon, and for a fixed amount without [max_discount], the estimated
    discount is the one [Coupon.calculate_discount] computes; for a fixed
    amount with [max_discount] it is never below it. *)
Theorem accepted_coupon_agrees_with_the_model
    (s : Store) (code user : string) (amount : Decimal) (t : option datetime)
    (now : datetime) (v : CouponValidation.t) :
  (CouponRepository.validate_coupon_for_user code user amount t now s).1
  = Return v →
  CouponValidation.is_valid v = true →
  ∃ c,
    CouponValidation.coupon v = Some c
    ∧ Coupon.coupon_code c = code
    ∧ Coupon.is_valid c (default now t) = true
    ∧ (Coupon.coupon_type c = PERCENTAGE
       ∨ (Coupon.coupon_type c = FIXED_AMOUNT ∧ Coupon.max_discount c = None) →
       CouponValidation.estimated_discount v
       = Some (Coupon.calculate_discount c amount))
    ∧ (Coupon.coupon_type c = FIXED_AMOUNT →
       ∃ d, CouponValidation.estimated_discount v = Some d
            ∧ (Coupon.calculate_discount c amount ≤ d)%Qc).
Proof.
  rewrite validate_outcome. cbn [fst].
  destruct (scalar_one_or_none _) as [[row|]|e] eqn:Hrow;
    [|intros [= <-]; by cbn|done].
  destruct (CouponRepository.to_model row) as [c|e] eqn:Hc; [|done].
  unfold Described.validate.
  destruct (Described.first_failure _) eqn:Hchecks;
    [intros [= <-]; by cbn|].
  intros [= <-] _. exists c. cbn.
  apply first_failure_None in Hchecks as (Hst & [Hfrom Hto] & Hlim & Hmin).
  split; [done|]. split.
  { apply to_model_keys in Hc as [_ ->].
    apply scalar_one_or_none_Some in Hrow.
    assert (row ∈ filter (λ r, CouponDB.coupon_code r = code) (coupons s))
      as [Hcode _]%list_elem_of_filter by (rewrite Hrow; left).
    done. }
  split.
  { unfold Coupon.is_valid. rewrite Hlim.
    by rewrite !bool_decide_eq_true_2 by done. }
  unfold Described.discount, Described.cap_in_force, Coupon.calculate_discount,
    Decimal_truthy.
  rewrite bool_decide_eq_false_2 by (by apply Qcle_not_lt).
  rewrite <- !py_min_is_min. split.
  - intros Hty. f_equal.
    destruct Hty as [-> | [-> ->]]; [|done].
    destruct (Coupon.max_discount c) as [m|]; [|done].
    case_bool_decide; [done|].
    f_equal. rewrite <- py_min_is_min. unfold py_min.
    by destruct (decide _);
      [rewrite bool_decide_eq_true_2|rewrite bool_decide_eq_false_2].
  - intros ->. eexists. split; [reflexivity|].
    rewrite !py_min_is_min.
    apply Qc_min_mono; [|apply Qcle_refl].
    destruct (Coupon.max_discount c) as [m|]; [|apply Qcle_refl].
    case_bool_decide; [apply Qcle_refl|].
    rewrite capped_is_min. apply Qc_min_le_l.
Qed.

(** PYTHON50 on an order of 300: valid, and the estimate of 50 is the
    coupon's own. *)
Lemma accepted_coupon_agrees_with_the_model_witness :
  ∃ v c,
    (CouponRepository.validate_coupon_for_user "PYTHON50" "u1" (dec 300 1) None 50
       (store_of python50)).1 = Return v
    ∧ CouponValidation.is_valid v = true
    ∧ CouponValidation.coupon v = Some c
    ∧ Coupon.is_valid c 50 = true
    ∧ CouponValidation.estimated_discount v
      = Some (Coupon.calculate_discount c (dec 300 1)).
Proof.
  destruct ((CouponRepository.validate_coupon_for_user "PYTHON50" "u1"
               (dec 300 1) None 50 (store_of python50)).1) as [v|e] eqn:Hv;
    [|vm_compute in Hv; discriminate].
  assert (CouponValidation.is_valid v = true) as Hvalid
    by (vm_compute in Hv; by injection Hv as <-).
  destruct (accepted_coupon_agrees_with_the_model (store_of python50)
              "PYTHON50" "u1" (dec 300 1) None 50 v Hv Hvalid)
    as (c & Hcoupon & _ & Hmodel & Hsame & _).
  exists v, c. split; [reflexivity|]. split; [exact Hvalid|].
  split; [exact Hcoupon|]. split; [exact Hmodel|].
  apply Hsame. right.
  vm_compute in Hv. injection Hv as <-. injection Hcoupon as <-.
  split; reflexivity.
Defined.

(** X4. When the one row with the code is refused by the [Coupon] model
    (an unknown type or status, a percentage above 1, a validity window
    that ends before it starts, ...), [validate_coupon_for_user] returns no
    validation: it raises the model's [ValidationError], whatever the
    status, the window and the usage of the coupon, because the row is
    converted before the first check. *)
Theorem validation_raises_on_a_row_the_model_refuses
    (s : Store) (code user : string) (amount : Decimal) (t : option datetime)
    (now : datetime) (row : CouponDB.t) (e : exn) :
  filter (λ r, CouponDB.coupon_code r = code) (coupons s) = [row] →
  CouponRepository.to_model row = Raise e →
  e = ValidationError "Coupon"
  ∧ CouponRepository.validate_coupon_for_user code user amount t now s
    = (Raise e, s).
Proof.
  intros Hrow He. split.
  - revert He. unfold CouponRepository.to_model.
    repeat case_match; congruence.
  - by rewrite validate_outcome, Hrow; cbn [scalar_one_or_none]; rewrite He.
Qed.

(** An inactive coupon with a percentage of 1.5 is not reported as
    deactivated: the validation raises. *)
Lemma validation_raises_on_a_row_the_model_refuses_witness :
  CouponDB.status broken_coupon = Some "inactive"%string
  ∧ CouponRepository.to_model broken_coupon = Raise (ValidationError "Coupon")
  ∧ CouponRepository.validate_coupon_for_user "BROKEN" "u1" (dec 100 1) None 50
      (store_of broken_coupon)
    = (Raise (ValidationError "Coupon"), store_of broken_coupon).
Proof.
  assert (CouponRepository.to_model broken_coupon
          = Raise (ValidationError "Coupon")) as He by (vm_compute; reflexivity).
  split; [reflexivity|]. split; [exact He|].
  destruct (validation_raises_on_a_row_the_model_refuses
              (store_of broken_coupon) "BROKEN" "u1" (dec 100 1) None 50
              broken_coupon (ValidationError "Coupon")) as [_ Hraises];
    [reflexivity | exact He | exact Hraises].
Defined.

(** ** Using a coupon, then asking again *)

(** [use_coupon] on the id of a row, where ids are unique. *)
Lemma use_coupon_on_row s row user order amount fresh now :
  NoDup (CouponDB.coupon_id <$> coupons s) → row ∈ coupons s →
  CouponRepository.use_coupon (CouponDB.coupon_id row) user order amount fresh
    now s
  = (Return true,
     {| courses := courses s;
        coupons :=
          (λ r, if bool_decide (CouponDB.coupon_id r = CouponDB.coupon_id row)
                then CouponDB.bump now r else r) <$> coupons s;
        coupon_usage :=
          coupon_usage s ++ [usage_row row user order amount fresh now];
        applied_discounts := applied_discounts s;
        discount_usage_history := discount_usage_history s |}).
Proof.
  intros Hnd Hin.
  unfold CouponRepository.use_coupon, CouponRepository.get_by_coupon_id,
    CouponRepository.add_usage, CouponRepository.increment_used_count.
  db_unfold. by rewrite (filter_key_unique CouponDB.coupon_id) by done.
Qed.

(** Counting the rows of a table after one more row. *)
Lemma length_filter_snoc {A : Type} (P : A → Prop) `{∀ x, Decision (P x)}
    (rows : list A) (row : A) :
  Z.of_nat (length (filter P (rows ++ [row])))
  = Z.of_nat (length (filter P rows)) + (if decide (P row) then 1 else 0).
Proof.
  rewrite list.filter_app, length_app, Nat2Z.inj_add, filter_cons, filter_nil.
  by destruct (decide (P row)).
Qed.

(** X5. Where [coupon_id] is unique, [use_coupon] on the id of a row
    raises by one the number [get_user_coupon_usage_count] gives for that
    user and that coupon, and leaves the count of every other user and
    every other coupon as it was. *)
Theorem use_coupon_adds_one_use
    (s : Store) (row : CouponDB.t) (user order : string) (amount : Decimal)
    (fresh : string) (now : datetime) (user' id' : string) :
  NoDup (CouponDB.coupon_id <$> coupons s) → row ∈ coupons s →
  let s' := (CouponRepository.use_coupon (CouponDB.coupon_id row) user order
               amount fresh now s).2 in
  ∃ n,
    CouponRepository.get_user_coupon_usage_count user' id' s = (Return n, s)
    ∧ CouponRepository.get_user_coupon_usage_count user' id' s'
      = (Return (if bool_decide (user' = user ∧ id' = CouponDB.coupon_id row)
                 then n + 1 else n), s').
Proof.
  intros Hnd Hin. rewrite use_coupon_on_row by done. cbn [snd].
  unfold CouponRepository.get_user_coupon_usage_count. db_unfold.
  cbn [coupon_usage].
  eexists. split; [reflexivity|]. do 2 f_equal.
  rewrite length_filter_snoc. cbn.
  case_bool_decide as Hsame.
  - destruct Hsame as [-> ->]. by rewrite decide_True.
  - rewrite decide_False; [lia|]. intros [? ?]. by apply Hsame.
Qed.

Lemma use_coupon_adds_one_use_witness :
  NoDup (CouponDB.coupon_id <$> coupons (store_of python50))
  ∧ python50 ∈ coupons (store_of python50)
  ∧ (CouponRepository.get_user_coupon_usage_count "u1" "c-py50"
       (store_of python50)).1 = Return 0
  ∧ (CouponRepository.get_user_coupon_usage_count "u1" "c-py50"
       (CouponRepository.use_coupon "c-py50" "u1" "o1" (dec 50 1) "usage-1" 60
          (store_of python50)).2).1 = Return 1.
Proof.
  assert (NoDup (CouponDB.coupon_id <$> coupons (store_of python50))) as Hnd
    by apply NoDup_singleton.
  assert (python50 ∈ coupons (store_of python50)) as Hin
    by (apply list_elem_of_singleton; reflexivity).
  split; [exact Hnd|]. split; [exact Hin|].
  destruct (use_coupon_adds_one_use (store_of python50) python50 "u1" "o1"
              (dec 50 1) "usage-1" 60 "u1" "c-py50" Hnd Hin) as (n & Hn & Hn').
  change (CouponDB.coupon_id python50) with "c-py50"%string in Hn'.
  rewrite Hn, Hn'. injection Hn as <-. split; reflexivity.
Defined.

Lemma to_model_bump row c now :
  CouponRepository.to_model row = Return c →
  ∃ c', CouponRepository.to_model (CouponDB.bump now row) = Return c'
        ∧ Coupon.usage_limit_per_user c' = CouponDB.usage_limit_per_user row
        ∧ Coupon.usage_limit c' = CouponDB.usage_limit row
        ∧ Coupon.used_count c' = Coupon.used_count c + 1.
Proof.
  unfold CouponRepository.to_model.
  cbn [CouponDB.bump CouponDB.coupon_id CouponDB.coupon_code
       CouponDB.coupon_name CouponDB.coupon_type CouponDB.discount_value
       CouponDB.min_order_amount CouponDB.max_discount CouponDB.valid_from
       CouponDB.valid_to CouponDB.usage_limit CouponDB.usage_limit_per_user
       CouponDB.used_count CouponDB.applicable_courses CouponDB.description
       CouponDB.status CouponDB.created_at CouponDB.updated_at].
  destruct (CouponType_of _) as [ty|]; [|done].
  destruct (CouponDB.status row ≫= CouponStatus_of) as [st|]; [|done].
  destruct (CouponDB.min_order_amount row) as [min_order_amount|]; [|done].
  destruct (CouponDB.used_count row) as [used_count|]; [|done].
  cbn [fmap option_fmap option_map].
  destruct (Coupon.valid _) eqn:Hv; [|done]. intros [= <-].
  match goal with |- context [Coupon.valid ?c'] =>
    assert (Coupon.valid c' = true) as ->; [|by eexists] end.
  revert Hv. unfold Coupon.valid. cbn. intros Hv.
  repeat (apply andb_prop in Hv as [Hv ?]).
  repeat (apply andb_true_intro; split); try done.
  apply bool_decide_eq_true.
  match goal with H : bool_decide (0 ≤ _) = true |- _ =>
    apply bool_decide_eq_true in H; lia end.
Qed.

Lemma bump_codes (rows : list CouponDB.t) id now :
  CouponDB.coupon_code
    <$> ((λ r, if bool_decide (CouponDB.coupon_id r = id)
               then CouponDB.bump now r else r) <$> rows)
  = CouponDB.coupon_code <$> rows.
Proof.
  rewrite <- list_fmap_compose. apply list_fmap_ext. intros _ r _. cbn.
  by case_bool_decide.
Qed.

(** X6. Where coupon ids and coupon codes are unique, and for a coupon
    whose row is a valid [Coupon]: once [use_coupon] has recorded a use
    that brings a user's uses of the coupon to its [usage_limit_per_user],
    [validate_coupon_for_user] refuses the coupon to that user, for every
    order amount and at every time. *)
Theorem exhausted_allowance_is_refused
    (s : Store) (row : CouponDB.t) (c : Coupon.t) (user order : string)
    (amount : Decimal) (fresh : string) (now : datetime) (limit n : Z) :
  NoDup (CouponDB.coupon_id <$> coupons s) →
  NoDup (CouponDB.coupon_code <$> coupons s) →
  row ∈ coupons s →
  CouponRepository.to_model row = Return c →
  CouponDB.usage_limit_per_user row = Some limit →
  (CouponRepository.get_user_coupon_usage_count user (CouponDB.coupon_id row)
     s).1 = Return n →
  limit ≤ n + 1 →
  let s' := (CouponRepository.use_coupon (CouponDB.coupon_id row) user order
               amount fresh now s).2 in
  ∀ amount' t' now',
    ∃ v, CouponRepository.validate_coupon_for_user (CouponDB.coupon_code row)
           user amount' t' now' s' = (Return v, s')
         ∧ CouponValidation.is_valid v = false.
Proof.
  intros Hids Hcodes Hin Hc Hlimit Hn Hle s' amount' t' now'.
  subst s'. rewrite use_coupon_on_row by done. cbn [snd].
  set (s' := {| courses := _ |}).
  destruct (to_model_bump row c now Hc) as (c' & Hc' & Hper & _).
  assert (CouponDB.bump now row ∈ coupons s') as Hin'.
  { cbn. apply list_elem_of_fmap. exists row.
    by rewrite bool_decide_eq_true_2 by done. }
  rewrite validate_outcome.
  pose proof (filter_key_unique CouponDB.coupon_code (coupons s')
                (CouponDB.bump now row)) as Hrow.
  cbn [CouponDB.bump CouponDB.coupon_code] in Hrow.
  rewrite Hrow by (by cbn; rewrite ?bump_codes).
  cbn [scalar_one_or_none]. rewrite Hc'.
  eexists. split; [reflexivity|].
  unfold Described.validate.
  destruct (first_failure_Some
              (Described.checks c' (default now' t') amount'
                 (prior_uses s' user (CouponDB.coupon_id (CouponDB.bump now row))))
              UserCapReached) as [err ->]; [|done].
  unfold Described.checks. rewrite Hper, Hlimit.
  rewrite (bool_decide_eq_false_2 (prior_uses _ _ _ < limit)).
  { do 5 right. left. }
  unfold CouponRepository.get_user_coupon_usage_count in Hn. db_unfold.
  injection Hn as Hn. unfold prior_uses.
  subst s'. cbn [coupon_usage CouponDB.bump CouponDB.coupon_id].
  rewrite length_filter_snoc, Hn, decide_True by done. lia.
Qed.

(** PYTHON50 may be used once per user: valid for "u1" before the use,
    refused after it. *)
Lemma exhausted_allowance_is_refused_witness :
  CouponDB.usage_limit_per_user python50 = Some 1
  ∧ (∃ v, (CouponRepository.validate_coupon_for_user "PYTHON50" "u1" (dec 300 1)
             None 50 (store_of python50)).1 = Return v
          ∧ CouponValidation.is_valid v = true)
  ∧ (∃ v, (CouponRepository.validate_coupon_for_user "PYTHON50" "u1" (dec 300 1)
             None 70
             (CouponRepository.use_coupon "c-py50" "u1" "o1" (dec 50 1)
                "usage-1" 60 (store_of python50)).2).1 = Return v
          ∧ CouponValidation.is_valid v = false).
Proof.
  split; [reflexivity|]. split.
  { eexists. split; [vm_compute; reflexivity | reflexivity]. }
  destruct python50_is_a_Coupon as [c Hc].
  destruct (exhausted_allowance_is_refused (store_of python50) python50 c
              "u1" "o1" (dec 50 1) "usage-1" 60 1 0) with (amount' := dec 300 1)
    (t' := @None datetime) (now' := 70) as (v & Hv & Hrefused);
    [apply NoDup_singleton | apply NoDup_singleton
    | apply list_elem_of_singleton; reflexivity | exact Hc | reflexivity
    | reflexivity | lia |].
  exists v. split; [|exact Hrefused].
  change (CouponDB.coupon_id python50) with "c-py50"%string in Hv.
  change (CouponDB.coupon_code python50) with "PYTHON50"%string in Hv.
  by rewrite Hv.
Defined.

(** X7. Where coupon ids and coupon codes are unique, and for a coupon
    whose row is a valid [Coupon]: once [use_coupon] has brought the
    [used_count] of the coupon to its [usage_limit],
    [validate_coupon_for_user] refuses the coupon to every user, for every
    order amount and at every time. *)
Theorem exhausted_coupon_is_refused_to_everyone
    (s : Store) (row : CouponDB.t) (c : Coupon.t) (user order : string)
    (amount : Decimal) (fresh : string) (now : datetime) (limit n : Z) :
  NoDup (CouponDB.coupon_id <$> coupons s) →
  NoDup (CouponDB.coupon_code <$> coupons s) →
  row ∈ coupons s →
  CouponRepository.to_model row = Return c →
  CouponDB.usage_limit row = Some limit →
  CouponDB.used_count row = Some n →
  limit ≤ n + 1 →
  let s' := (CouponRepository.use_coupon (CouponDB.coupon_id row) user order
               amount fresh now s).2 in
  ∀ user' amount' t' now',
    ∃ v, CouponRepository.validate_coupon_for_user (CouponDB.coupon_code row)
           user' amount' t' now' s' = (Return v, s')
         ∧ CouponValidation.is_valid v = false.
Proof.
  intros Hids Hcodes Hin Hc Hlimit Hn Hle s' user' amount' t' now'.
  subst s'. rewrite use_coupon_on_row by done. cbn [snd].
  set (s' := {| courses := _ |}).
  destruct (to_model_bump row c now Hc) as (c' & Hc' & _ & Hlim & Hused).
  pose proof Hc as (_ & _ & _ & _ & _ & _ & _ & _ & _ & _ & Hcount & _)%to_model_Return.
  rewrite Hn in Hcount. injection Hcount as Hcount.
  assert (CouponDB.bump now row ∈ coupons s') as Hin'.
  { cbn. apply list_elem_of_fmap. exists row.
    by rewrite bool_decide_eq_true_2 by done. }
  rewrite validate_outcome.
  pose proof (filter_key_unique CouponDB.coupon_code (coupons s')
                (CouponDB.bump now row)) as Hrow.
  cbn [CouponDB.bump CouponDB.coupon_code] in Hrow.
  rewrite Hrow by (by cbn; rewrite ?bump_codes).
  cbn [scalar_one_or_none]. rewrite Hc'.
  eexists. split; [reflexivity|].
  unfold Described.validate.
  destruct (first_failure_Some
              (Described.checks c' (default now' t') amount'
                 (prior_uses s' user' (CouponDB.coupon_id (CouponDB.bump now row))))
              CouponUsageCapReached) as [err ->]; [|done].
  unfold Described.checks. rewrite Hlim, Hlimit, Hused.
  rewrite (bool_decide_eq_false_2 (_ < limit)) by lia.
  do 3 right. left.
Qed.

(** A coupon for a single use: once "u1" has used it, it is refused to
    "u2". *)
Lemma exhausted_coupon_is_refused_to_everyone_witness :
  CouponDB.usage_limit single_use_coupon = Some 1
  ∧ (∃ v, (CouponRepository.validate_coupon_for_user "ONCE" "u2" (dec 300 1)
             None 50 (store_of single_use_coupon)).1 = Return v
          ∧ CouponValidation.is_valid v = true)
  ∧ (∃ v, (CouponRepository.validate_coupon_for_user "ONCE" "u2" (dec 300 1)
             None 70
             (CouponRepository.use_coupon "c-once" "u1" "o1" (dec 60 1)
                "usage-1" 60 (store_of single_use_coupon)).2).1 = Return v
          ∧ CouponValidation.is_valid v = false).
Proof.
  split; [reflexivity|]. split.
  { eexists. split; [vm_compute; reflexivity | reflexivity]. }
  destruct (CouponRepository.to_model single_use_coupon) as [c|e] eqn:Hc;
    [|vm_compute in Hc; discriminate].
  destruct (exhausted_coupon_is_refused_to_everyone (store_of single_use_coupon)
              single_use_coupon c "u1" "o1" (dec 60 1) "usage-1" 60 1 0)
    with (user' := "u2"%string) (amount' := dec 300 1) (t' := @None datetime)
         (now' := 70) as (v & Hv & Hrefused);
    [apply NoDup_singleton | apply NoDup_singleton
    | apply list_elem_of_singleton; reflexivity | exact Hc | reflexivity
    | reflexivity | lia |].
  exists v. split; [|exact Hrefused].
  change (CouponDB.coupon_id single_use_coupon) with "c-once"%string in Hv.
  change (CouponDB.coupon_code single_use_coupon) with "ONCE"%string in Hv.
  by rewrite Hv.
Defined.

(** ** The discount of a coupon grows with the order *)

(** X9. For a coupon that satisfies the constraints of the [Coupon] model,
    [Coupon.calculate_discount] is monotone in the order amount: a larger
    order never gets a smaller discount. *)
Theorem calculate_discount_grows_with_the_order (c : Coupon.t) (a b : Decimal) :
  Coupon.valid c = true → (a ≤ b)%Qc →
  (Coupon.calculate_discount c a ≤ Coupon.calculate_discount c b)%Qc.
Proof.
  intros Hvalid Hab.
  assert ((0 ≤ Coupon.discount_value c)%Qc ∧ (0 ≤ Coupon.min_order_amount c)%Qc)
    as [Hvalue Hmin].
  { pose proof Hvalid as Hv. unfold Coupon.valid in Hv.
    repeat (apply andb_prop in Hv as [Hv ?]).
    split;
      match goal with
      | H : bool_decide ?P = true |- ?P => by apply bool_decide_eq_true in H
      end. }
  set (raw x := match Coupon.coupon_type c with
                | PERCENTAGE => (x * Coupon.discount_value c)%Qc
                | _ => Coupon.discount_value c
                end).
  set (capped x := match Decimal_truthy (Coupon.max_discount c) with
                   | Some m => Qc_min (raw x) m
                   | None => raw x
                   end).
  assert (∀ x, Coupon.calculate_discount c x
               = if bool_decide (x < Coupon.min_order_amount c)%Qc then 0%Qc
                 else Qc_min (capped x) x) as Hcalc.
  { intros x. unfold Coupon.calculate_discount, capped, raw.
    destruct (bool_decide (x < Coupon.min_order_amount c)%Qc); [done|].
    rewrite py_min_is_min.
    destruct (Decimal_truthy _); [|done]. by rewrite capped_is_min. }
  assert (∀ x y, (x ≤ y)%Qc → (raw x ≤ raw y)%Qc) as Hraw.
  { intros x y Hxy. unfold raw. destruct (Coupon.coupon_type c);
      [by apply Qcmult_le_compat_r | apply Qcle_refl | apply Qcle_refl]. }
  assert (∀ x y, (x ≤ y)%Qc → (capped x ≤ capped y)%Qc) as Hcapped.
  { intros x y Hxy. unfold capped. destruct (Decimal_truthy _);
      [apply Qc_min_mono; [by apply Hraw | apply Qcle_refl] | by apply Hraw]. }
  assert (∀ x, (0 ≤ x)%Qc → (0 ≤ capped x)%Qc) as Hpos.
  { intros x Hx.
    assert (0 ≤ raw x)%Qc as Hr.
    { unfold raw. destruct (Coupon.coupon_type c); try done.
      rewrite <- (Qcmult_0_l (Coupon.discount_value c)).
      by apply Qcmult_le_compat_r. }
    unfold capped, Decimal_truthy.
    destruct (Coupon.max_discount c) as [m|] eqn:Hm; [|done].
    case_bool_decide; [done|].
    unfold Qc_min. case_decide; [done|].
    by eapply valid_max_discount_nonneg. }
  rewrite !Hcalc.
  destruct (bool_decide (a < _)%Qc) eqn:Ha, (bool_decide (b < _)%Qc) eqn:Hb.
  - apply Qcle_refl.
  - apply bool_decide_eq_false, Qcnot_lt_le in Hb.
    assert (0 ≤ b)%Qc as Hb' by (by eapply Qcle_trans).
    unfold Qc_min. destruct (decide (capped b ≤ b)%Qc); [by apply Hpos | done].
  - exfalso. apply bool_decide_eq_false in Ha. apply bool_decide_eq_true in Hb.
    apply Ha. by eapply Qcle_lt_trans.
  - apply Qc_min_mono; [by apply Hcapped | done].
Qed.

(** 20% capped at 50: an order of 100 gets no more than an order of 1000. *)
Lemma calculate_discount_grows_with_the_order_witness :
  ∃ c, CouponRepository.to_model capped_coupon = Return c
       ∧ Coupon.valid c = true
       ∧ (dec 100 1 ≤ dec 1000 1)%Qc
       ∧ (Coupon.calculate_discount c (dec 100 1)
          ≤ Coupon.calculate_discount c (dec 1000 1))%Qc.
Proof.
  eexists. split; [vm_compute; reflexivity|].
  assert (dec 100 1 ≤ dec 1000 1)%Qc as Hle by (by vm_compute).
  match goal with |- Coupon.valid ?c = true ∧ _ =>
    assert (Coupon.valid c = true) as Hvalid by (by vm_compute);
    pose proof (calculate_discount_grows_with_the_order c (dec 100 1)
                  (dec 1000 1) Hvalid Hle) as Hmono
  end.
  split; [exact Hvalid|]. split; [exact Hle | exact Hmono].
Defined.

(** ** The discounts a user can still use *)

(** [max_by]: an element of the list, with a key no smaller than any. *)
Lemma max_by_spec {A : Type} (key : A → Decimal) (first : A) (rest : list A) :
  max_by key first rest ∈ first :: rest
  ∧ ∀ y, y ∈ first :: rest → (key y ≤ key (max_by key first rest))%Qc.
Proof.
  unfold max_by. revert first.
  induction rest as [|z rest IH]; intros first; cbn [fold_left].
  - split; [left|]. intros y ->%list_elem_of_singleton. apply Qcle_refl.
  - destruct (IH (if bool_decide (key first < key z)%Qc then z else first))
      as [Hin Hmax].
    split.
    + apply elem_of_cons in Hin as [->|Hin].
      * case_bool_decide; [right; left | left].
      * by do 2 right.
    + intros y Hy.
      assert (key first ≤ key (if bool_decide (key first < key z)%Qc
                               then z else first))%Qc as Hfirst.
      { case_bool_decide; [by apply Qclt_le_weak | apply Qcle_refl]. }
      assert (key z ≤ key (if bool_decide (key first < key z)%Qc
                           then z else first))%Qc as Hz.
      { case_bool_decide; [apply Qcle_refl | by apply Qcnot_lt_le]. }
      apply elem_of_cons in Hy as [->|[->|Hy]%elem_of_cons].
      * eapply Qcle_trans; [exact Hfirst | apply Hmax; left].
      * eapply Qcle_trans; [exact Hz | apply Hmax; left].
      * apply Hmax. by right.
Qed.

(** Without a course id (none, or an empty one) [get_user_active_discounts]
    reads only, and lists the records of the table that meet its three
    conditions. *)
Lemma active_discounts_listed s user course now :
  course = None ∨ course = Some EmptyString →
  ∃ l, DiscountRepository.get_user_active_discounts user course now s
       = (Return l, s)
       ∧ ∀ d, d ∈ l ↔ d ∈ applied_discounts s
                      ∧ DiscountRepository.active_for user now d = true.
Proof.
  intros Hcourse.
  unfold DiscountRepository.get_user_active_discounts.
  assert (DiscountRepository.course_condition course = Return (λ _, true)) as ->
    by (by destruct Hcourse as [-> | ->]).
  db_unfold. eexists. split; [reflexivity|]. intros d.
  rewrite elem_of_order_by_desc, list_elem_of_filter, andb_true_r. tauto.
Qed.

(** With a course id the condition on the course cannot be built: the
    class [AppliedDiscountDB] has no attribute [course_id]. *)
Lemma active_discounts_of_a_course s user c now :
  c ≠ EmptyString →
  DiscountRepository.get_user_active_discounts user (Some c) now s
  = (Raise (AttributeError "course_id"), s).
Proof.
  intros Hc. unfold DiscountRepository.get_user_active_discounts,
    DiscountRepository.course_condition.
  by rewrite bool_decide_eq_false_2 by done.
Qed.

(** X10. [get_best_discount_for_user] never writes.  Called with a course
    id (one that is not empty) it answers nothing: it raises
    [AttributeError], the mapped class having no [course_id] to compare
    with.  Called without one it answers [None] exactly when no record of
    the ledger is active for the user (of this user, unused, not yet
    expired); otherwise it answers such a record, and no active record of
    the user gives a larger discount on the order amount, by
    [_calculate_discount_amount]; without an order amount, or with an
    amount of zero, no active record has a larger [discount_value]. *)
Theorem best_discount_is_active_and_largest
    (s : Store) (user : string) (course : option string)
    (order_amount : option Decimal) (now : datetime) :
  (∀ c, course = Some c → c ≠ EmptyString →
     DiscountRepository.get_best_discount_for_user user course order_amount now s
     = (Raise (AttributeError "course_id"), s))
  ∧ (course = None ∨ course = Some EmptyString →
     ∃ best,
       DiscountRepository.get_best_discount_for_user user course order_amount
         now s = (Return best, s)
       ∧ match best with
         | None =>
             ∀ d, d ∈ applied_discounts s →
                  DiscountRepository.active_for user now d = false
         | Some b =>
             b ∈ applied_discounts s
             ∧ AppliedDiscountDB.user_id b = user
             ∧ AppliedDiscountDB.is_used b = Some false
             ∧ (∃ valid_until, AppliedDiscountDB.valid_until b = Some valid_until
                               ∧ now < valid_until)
             ∧ ∀ d, d ∈ applied_discounts s →
                    DiscountRepository.active_for user now d = true →
                    match Decimal_truthy order_amount with
                    | Some amount =>
                        (DiscountRepository._calculate_discount_amount d amount
                         ≤ DiscountRepository._calculate_discount_amount b amount)%Qc
                    | None =>
                        (AppliedDiscountDB.discount_value d
                         ≤ AppliedDiscountDB.discount_value b)%Qc
                    end
         end).
Proof.
  unfold DiscountRepository.get_best_discount_for_user. split.
  - intros c -> Hc. unfold mbind, db_bind.
    by rewrite active_discounts_of_a_course.
  - intros Hcourse.
    destruct (active_discounts_listed s user course now Hcourse)
      as (l & Hl & Hin).
    unfold mbind, db_bind. rewrite Hl.
    assert (∀ b, b ∈ l →
              b ∈ applied_discounts s
              ∧ AppliedDiscountDB.user_id b = user
              ∧ AppliedDiscountDB.is_used b = Some false
              ∧ ∃ valid_until, AppliedDiscountDB.valid_until b = Some valid_until
                               ∧ now < valid_until) as Hactive.
    { intros b [Hb Hact]%Hin. split; [done|].
      unfold DiscountRepository.active_for in Hact.
      apply andb_prop in Hact as [Hact Huntil].
      apply andb_prop in Hact as [Huser Hused].
      apply bool_decide_eq_true in Huser, Hused.
      destruct (AppliedDiscountDB.valid_until b) as [valid_until|]; [|done].
      apply bool_decide_eq_true in Huntil. repeat split; try done.
      by exists valid_until. }
    destruct l as [|d0 rest].
    + eexists. split; [reflexivity|]. intros d Hd.
      destruct (DiscountRepository.active_for user now d) eqn:Hact; [|done].
      assert (d ∈ []) as Hnil by (by apply Hin). by apply elem_of_nil in Hnil.
    + destruct (Decimal_truthy order_amount) as [amount|].
      * destruct (max_by_spec
                    (λ d, DiscountRepository._calculate_discount_amount d amount)
                    d0 rest) as [Hmem Hmax].
        eexists. split; [reflexivity|]. cbn beta iota.
        destruct (Hactive _ Hmem) as (? & ? & ? & ?). repeat split; try done.
        intros d Hd Hact. apply Hmax. by apply Hin.
      * destruct (max_by_spec AppliedDiscountDB.discount_value d0 rest)
          as [Hmem Hmax].
        eexists. split; [reflexivity|]. cbn beta iota.
        destruct (Hactive _ Hmem) as (? & ? & ? & ?). repeat split; try done.
        intros d Hd Hact. apply Hmax. by apply Hin.
Qed.

(** On the ledger with one pending record of "u1": asked without a course,
    the call answers that record; asked for "course-a", it raises. *)
Lemma best_discount_is_active_and_largest_witness :
  DiscountRepository.get_best_discount_for_user "u1" None (Some (dec 500 1)) 10
    ledger_store = (Return (Some pending_discount), ledger_store)
  ∧ DiscountRepository.get_best_discount_for_user "u1" (Some "course-a"%string)
      (Some (dec 500 1)) 10 ledger_store
    = (Raise (AttributeError "course_id"), ledger_store).
Proof.
  split.
  - destruct (best_discount_is_active_and_largest ledger_store "u1" None
                (Some (dec 500 1)) 10) as [_ Hbest].
    destruct Hbest as ([b|] & -> & Hb); [left; reflexivity | |].
    + destruct Hb as (->%list_elem_of_singleton & _). reflexivity.
    + exfalso. specialize (Hb pending_discount).
      assert (DiscountRepository.active_for "u1" 10 pending_discount = true)
        as Hact by reflexivity.
      rewrite Hb in Hact; [discriminate Hact|].
      apply list_elem_of_singleton. reflexivity.
  - destruct (best_discount_is_active_and_largest ledger_store "u1"
                (Some "course-a"%string) (Some (dec 500 1)) 10) as [Hraises _].
    apply (Hraises "course-a"%string); [reflexivity | discriminate].
Defined.

(** X12. [use_discount] consumes nothing: after the call, whatever the
    discount id, every table is as it was, so [get_user_active_discounts]
    and [get_best_discount_for_user] answer as they did before it, and a
    record that was active is active still. *)
Theorem use_discount_leaves_the_discount_active
    (s : Store) (discount_id : Z) (order : string) (amount : Decimal)
    (now : datetime) (user : string) (course : option string)
    (order_amount : option Decimal) (now' : datetime) :
  let s' := (DiscountRepository.use_discount discount_id order amount now s).2 in
  s' = s
  ∧ DiscountRepository.get_user_active_discounts user course now' s'
    = DiscountRepository.get_user_active_discounts user course now' s
  ∧ DiscountRepository.get_best_discount_for_user user course order_amount now' s'
    = DiscountRepository.get_best_discount_for_user user course order_amount
        now' s.
Proof. cbv zeta. by rewrite use_discount_changes_nothing. Qed.

(** ** The services that price an order and use a coupon *)

Lemma get_best_discount_reads_only user order_amount now s :
  ∃ best,
    DiscountRepository.get_best_discount_for_user user None order_amount now s
    = (Return best, s).
Proof.
  unfold DiscountRepository.get_best_discount_for_user,
    DiscountRepository.get_user_active_discounts.
  db_unfold. cbn [DiscountRepository.course_condition].
  destruct (order_by_desc _ _); [by eexists|].
  destruct (Decimal_truthy _); by eexists.
Qed.

(** X13. [OrderService.calculate_order_price] returns no price and writes
    nothing: every call raises.  Without a coupon code or without a user
    it raises the [ValidationError] of [PriceCalculation] when no course id
    resolves and that of the first [OrderItem] otherwise, the keyword
    arguments it passes being those of [_calculate_base_price]. *)
Theorem calculate_order_price_never_returns
    (course_ids : list string) (user_id coupon_code : option string)
    (apply_auto_discount : bool) (now : datetime) (s : Store) :
  ∃ e,
    OrderService.calculate_order_price course_ids user_id coupon_code
      apply_auto_discount now s = (Raise e, s)
    ∧ ∀ courses,
        (_get_courses course_ids s).1 = Return courses →
        given coupon_code = None ∨ given user_id = None →
        e = ValidationError (if bool_decide (courses = [])
                             then "PriceCalculation" else "OrderItem").
Proof.
  unfold OrderService.calculate_order_price.
  unfold mbind at 1. unfold db_bind at 1.
  pose proof (get_courses_reads_only course_ids s) as Hs.
  destruct (_get_courses course_ids s) as [[courses|e] s1]; cbn in Hs; subst s1;
    [|by eexists].
  destruct courses as [|course rest].
  { eexists. split; [reflexivity|]. by intros ? [= <-]. }
  set (courses := course :: rest).
  assert (∀ coupon_discount,
    ∃ e, (auto_discount ←
            match (if apply_auto_discount then given user_id else None) with
            | Some user_id =>
                best_discount ← DiscountRepository.get_best_discount_for_user
                                  user_id None (Some (sum_current_price courses))
                                  now;
                match best_discount with
                | Some best_discount =>
                    if bool_decide (AppliedDiscountDB.discount_type best_discount
                                    = "percentage"%string)
                    then mret (sum_current_price courses
                               * (AppliedDiscountDB.discount_value best_discount
                                  / Qc_of_Z 100))%Qc
                    else if bool_decide
                              (AppliedDiscountDB.discount_type best_discount
                               = "fixed_amount"%string)
                    then mret (py_min
                                 (AppliedDiscountDB.discount_value best_discount)
                                 (sum_current_price courses))
                    else mret 0%Qc
                | None => mret 0%Qc
                end
            | None => mret 0%Qc
            end;
          let total_discount := (coupon_discount + auto_discount)%Qc in
          let final_total :=
            py_max (sum_current_price courses - total_discount)%Qc 0%Qc in
          items ← lift (order_items courses);
          lift (PriceCalculation.init
            {| PriceCalculation.original_total := sum_current_price courses;
               PriceCalculation.discount_total := total_discount;
               PriceCalculation.final_total := final_total;
               PriceCalculation.coupon_discount := coupon_discount;
               PriceCalculation.auto_discount := auto_discount;
               PriceCalculation.items := items |})) s
         = (Raise e, s) ∧ e = ValidationError "OrderItem") as Hrest.
  { intros coupon_discount. exists (ValidationError "OrderItem").
    split; [|done].
    destruct (if apply_auto_discount then given user_id else None) as [u|];
      [|reflexivity].
    destruct (get_best_discount_reads_only u
                (Some (sum_current_price courses)) now s) as (best & Hbest).
    db_unfold. rewrite Hbest.
    destruct best as [b|]; [|reflexivity].
    by repeat case_bool_decide. }
  destruct (given coupon_code) as [code|], (given user_id) as [user|].
  - pose proof (validate_reads_only code user (sum_current_price courses)
                  None now s) as Hv.
    db_unfold.
    destruct (CouponRepository.validate_coupon_for_user _ _ _ _ _ _)
      as [[v|e] s1]; cbn in Hv; subst s1.
    + destruct (CouponValidation.is_valid v).
      * exists (AttributeError "discount_amount").
        split; [reflexivity|]. by intros ? _ [[=]|[=]].
      * destruct (Hrest 0%Qc) as (e & He & ->).
        eexists. split; [exact He|]. by intros ? _ [[=]|[=]].
    + eexists. split; [reflexivity|]. by intros ? _ [[=]|[=]].
  - destruct (Hrest 0%Qc) as (e & He & ->).
    eexists. split; [exact He|]. by intros ? [= <-].
  - destruct (Hrest 0%Qc) as (e & He & ->).
    eexists. split; [exact He|]. by intros ? [= <-].
  - destruct (Hrest 0%Qc) as (e & He & ->).
    eexists. split; [exact He|]. by intros ? [= <-].
Qed.

(** X14. [CouponService.use_coupon] never records a use, whatever the
    cache does: it answers [False] when the validation (asked with the
    discount amount as the order amount) refuses the coupon, raises
    [AttributeError] when the validation accepts it, [coupon_id] being no
    field of [CouponValidation], and raises what the validation raises;
    the store is left as it was. *)
Theorem coupon_service_never_uses_a_coupon
    (delete_pattern : string → db Z) (code user order : string)
    (amount : Decimal) (fresh : string) (now : datetime) (s : Store) :
  CouponService.use_coupon delete_pattern code user order amount fresh now s
  = (match (CouponRepository.validate_coupon_for_user code user amount None
              now s).1 with
     | Return v =>
         if CouponValidation.is_valid v
         then Raise (AttributeError "coupon_id")
         else Return false
     | Raise e => Raise e
     end, s).
Proof.
  unfold CouponService.use_coupon, CouponService.validate_coupon_for_user.
  db_unfold.
  pose proof (validate_reads_only code user amount None now s) as Hs.
  destruct (CouponRepository.validate_coupon_for_user _ _ _ _ _ _)
    as [[v|e] s1]; cbn in Hs; subst s1; [|done].
  cbn [fst]. destruct (CouponValidation.is_valid v); reflexivity.
Qed.

(** ** The options offered to the agent *)

(** The order of binary64 numbers: [<] is transitive and irreflexive (a
    NaN is below nothing and above nothing). *)
Lemma SFltb_trans (x y z : spec_float) :
  SFltb x y = true → SFltb y z = true → SFltb x z = true.
Proof.
  unfold SFltb, SFcompare.
  change (Pos.compare_cont Eq) with Pos.compare.
  destruct x as [sx|sx| |sx mx ex], y as [sy|sy| |sy my ey],
    z as [sz|sz| |sz mz ez];
    try destruct sx; try destruct sy; try destruct sz;
    try discriminate; try reflexivity.
  all: destruct (Z.compare_spec ex ey), (Z.compare_spec ey ez),
         (Z.compare_spec ex ez); try discriminate; try reflexivity; try lia.
  all: destruct (Pos.compare_spec mx my), (Pos.compare_spec my mz),
         (Pos.compare_spec mx mz); cbn; try discriminate; try reflexivity;
       try lia.
Qed.

Lemma SFltb_irrefl (x : spec_float) : SFltb x x = false.
Proof.
  unfold SFltb, SFcompare.
  change (Pos.compare_cont Eq) with Pos.compare.
  destruct x as [[]|[]| |[] m e]; try reflexivity;
    by rewrite Z.compare_refl, Pos.compare_refl.
Qed.

Lemma float_lt_trans (x y z : float) :
  (x <? y)%float = true → (y <? z)%float = true → (x <? z)%float = true.
Proof. rewrite !ltb_spec. apply SFltb_trans. Qed.

Lemma float_lt_irrefl (x : float) : (x <? x)%float = false.
Proof. rewrite ltb_spec. apply SFltb_irrefl. Qed.

Lemma float_lt_asym (x y : float) :
  (x <? y)%float = true → (y <? x)%float = false.
Proof.
  intros Hxy. destruct (y <? x)%float eqn:Hyx; [|done].
  by rewrite <- (float_lt_irrefl x), (float_lt_trans x y x).
Qed.

(** The fold of [max]: it ends on the first entry or on one with a larger
    score, an entry of the list, below no entry of the list. *)
Lemma max_score_spec (first : AgentOption.t) (rest : list AgentOption.t) :
  let score := AgentOption.recommendation_score in
  let best :=
    fold_left (λ best y, if (score best <? score y)%float then y else best)
              rest first in
  (best = first ∨ (score first <? score best)%float = true)
  ∧ best ∈ first :: rest
  ∧ ∀ o, o ∈ first :: rest → (score best <? score o)%float = false.
Proof.
  intros score. revert first.
  induction rest as [|z rest IH]; intros first; cbn [fold_left].
  - split; [by left|]. split; [left|].
    intros o ->%list_elem_of_singleton. apply float_lt_irrefl.
  - specialize (IH (if (score first <? score z)%float then z else first)).
    cbn zeta in IH. destruct IH as (Hup & Hin & Hmax).
    set (best := fold_left _ rest _) in *.
    destruct (score first <? score z)%float eqn:Hfz.
    + assert ((score first <? score best)%float = true) as Hfb.
      { destruct Hup as [->|Hzb]; [done|]. by eapply float_lt_trans. }
      split; [by right|]. split; [by right|].
      intros o [->|Ho]%elem_of_cons; [by apply float_lt_asym | by apply Hmax].
    + split; [done|]. split.
      { apply elem_of_cons in Hin as [->|Hin]; [left | by do 2 right]. }
      intros o [->|[->|Ho]%elem_of_cons]%elem_of_cons.
      * apply Hmax. left.
      * destruct Hup as [->|Hfb]; [done|].
        destruct (score best <? score z)%float eqn:Hbo; [|done].
        by rewrite <- Hfz, (float_lt_trans _ _ _ Hfb Hbo).
      * apply Hmax. by right.
Qed.

(** X15. [_select_recommended_option] answers [None] only for an empty
    list of options; otherwise it answers one of the options, and no option
    of the list has a recommendation score above the score of the one it
    answers. *)
Theorem recommended_option_has_the_highest_score
    (options : list AgentOption.t) (user_profile : option (list (string * pyval)))
    (base_amount : Decimal) :
  match _select_recommended_option options user_profile base_amount with
  | None => options = []
  | Some best =>
      best ∈ options
      ∧ ∀ o, o ∈ options →
             (AgentOption.recommendation_score best
              <? AgentOption.recommendation_score o)%float = false
  end.
Proof.
  unfold _select_recommended_option. destruct options as [|first rest]; [done|].
  by destruct (max_score_spec first rest) as (_ & Hin & Hmax).
Qed.

(** X16. The recommendation scores lie between 0 and 1: the score
    [_calculate_option_score] gives an option, whenever it gives one, and
    the score [_calculate_no_discount_score] gives the option without
    discount, for every user profile. *)
Theorem recommendation_scores_lie_between_0_and_1
    (opt : pyval) (user_profile : option (list (string * pyval)))
    (base_amount : Decimal) (score : float) :
  _calculate_option_score opt user_profile base_amount = Return score →
  ((0 <=? score)%float = true ∧ (score <=? 1)%float = true)
  ∧ (0 <=? _calculate_no_discount_score user_profile)%float = true
  ∧ (_calculate_no_discount_score user_profile <=? 1)%float = true.
Proof.
  intros Hscore. split.
  - revert Hscore.
    unfold _calculate_option_score, mbind, result_bind, mret, result_ret.
    destruct (no_profile user_profile); [intros [= <-]; by vm_compute|].
    destruct (_calculate_discount_amount opt base_amount) as [d|e]; [|done].
    generalize (profile_get user_profile "price_sensitivity" (PStr "medium")).
    intros p.
    destruct (eq_str p "high"), (eq_str p "low");
      destruct (bool_decide (0 < base_amount)%Qc);
      repeat match goal with
      | |- context [bool_decide ?P] => destruct (bool_decide P)
      end; cbn [andb]; intros [= <-]; by vm_compute.
  - clear Hscore. unfold _calculate_no_discount_score.
    destruct (no_profile user_profile); [by vm_compute|].
    generalize (profile_get user_profile "price_sensitivity" PNone),
      (profile_get user_profile "value_perception" PNone).
    intros p q.
    destruct (eq_str p "low"), (eq_str p "high"), (eq_str q "high");
      by vm_compute.
Qed.

(** 15 percent for the price-sensitive user of Scenario E: a score of 0.8. *)
Lemma recommendation_scores_lie_between_0_and_1_witness :
  ∃ score,
    _calculate_option_score (PDict fifteen_percent) price_sensitive (dec 299 1)
    = Return score
    ∧ (0 <=? score)%float = true ∧ (score <=? 1)%float = true.
Proof.
  destruct (_calculate_option_score (PDict fifteen_percent) price_sensitive
              (dec 299 1)) as [score|e] eqn:Hscore;
    [|vm_compute in Hscore; discriminate].
  exists score. split; [reflexivity|].
  by destruct (recommendation_scores_lie_between_0_and_1 (PDict fifteen_percent)
                 price_sensitive (dec 299 1) score Hscore) as [Hbounds _].
Defined.

Lemma profile_with_a_key_is_a_profile
    (user_profile : option (list (string * pyval))) key v :
  dict_get (default [] user_profile) key = Some v →
  no_profile user_profile = false.
Proof. by destruct user_profile as [[|kv rest]|]. Qed.

(** X17. How the price sensitivity of the profile ranks the options.
    Without a profile, and for a profile whose [price_sensitivity] is
    "high", every discount option that gets a score scores above the
    option without discount; for a profile whose [price_sensitivity] is
    "low", the option without discount scores above every discount
    option. *)
Theorem price_sensitivity_decides_the_ranking
    (opt : pyval) (user_profile : option (list (string * pyval)))
    (base_amount : Decimal) (score : float) :
  _calculate_option_score opt user_profile base_amount = Return score →
  let no_discount := _calculate_no_discount_score user_profile in
  (no_profile user_profile = true → (no_discount <? score)%float = true)
  ∧ (dict_get (default [] user_profile) "price_sensitivity" = Some (PStr "high") →
     (no_discount <? score)%float = true)
  ∧ (dict_get (default [] user_profile) "price_sensitivity" = Some (PStr "low") →
     (score <? no_discount)%float = true).
Proof.
  intros Hscore no_discount. subst no_discount.
  unfold _calculate_option_score, _calculate_no_discount_score,
    mbind, result_bind, mret, result_ret in *.
  split; [|split].
  - intros Hno. rewrite Hno in *. by injection Hscore as <-.
  - intros Hkey. rewrite (profile_with_a_key_is_a_profile _ _ _ Hkey) in *.
    unfold profile_get in *. rewrite Hkey in *. cbn [default] in *.
    revert Hscore.
    destruct (_calculate_discount_amount opt base_amount) as [d|e]; [|done].
    generalize (default PNone (dict_get (default [] user_profile)
                                 "value_perception")).
    intros q. string_tests. cbn [eq_str].
    destruct (eq_str q "high"), (bool_decide (0 < base_amount)%Qc);
      repeat match goal with
      | |- context [bool_decide ?P] => destruct (bool_decide P)
      end; cbn [andb]; intros [= <-]; by vm_compute.
  - intros Hkey. rewrite (profile_with_a_key_is_a_profile _ _ _ Hkey) in *.
    unfold profile_get in *. rewrite Hkey in *. cbn [default] in *.
    revert Hscore.
    destruct (_calculate_discount_amount opt base_amount) as [d|e]; [|done].
    generalize (default PNone (dict_get (default [] user_profile)
                                 "value_perception")).
    intros q. string_tests. cbn [eq_str].
    destruct (eq_str q "high"), (bool_decide (0 < base_amount)%Qc);
      repeat match goal with
      | |- context [bool_decide ?P] => destruct (bool_decide P)
      end; cbn [andb]; intros [= <-]; by vm_compute.
Qed.

(** For the price-sensitive user of Scenario E, 15 percent outranks no
    discount. *)
Lemma price_sensitivity_decides_the_ranking_witness :
  ∃ score,
    _calculate_option_score (PDict fifteen_percent) price_sensitive (dec 299 1)
    = Return score
    ∧ (_calculate_no_discount_score price_sensitive <? score)%float = true.
Proof.
  destruct (_calculate_option_score (PDict fifteen_percent) price_sensitive
              (dec 299 1)) as [score|e] eqn:Hscore;
    [|vm_compute in Hscore; discriminate].
  exists score. split; [reflexivity|].
  destruct (price_sensitivity_decides_the_ranking (PDict fifteen_percent)
              price_sensitive (dec 299 1) score Hscore) as (_ & Hhigh & _).
  apply Hhigh. reflexivity.
Defined.

Lemma percent_of_amount (base v : Decimal) :
  (0 ≤ base)%Qc → (0 ≤ v)%Qc → (v ≤ Qc_of_Z 100)%Qc →
  (0 ≤ base * (v / Qc_of_Z 100))%Qc ∧ (base * (v / Qc_of_Z 100) ≤ base)%Qc.
Proof.
  intros Hbase Hv Hv'.
  assert (0 ≤ / Qc_of_Z 100)%Qc as Hinv by (by vm_compute).
  assert (0 ≤ v / Qc_of_Z 100)%Qc as Hlo.
  { unfold Qcdiv. rewrite <- (Qcmult_0_l (/ Qc_of_Z 100)).
    by apply Qcmult_le_compat_r. }
  assert (v / Qc_of_Z 100 ≤ 1)%Qc as Hhi.
  { unfold Qcdiv.
    rewrite <- (Qcmult_inv_r (Qc_of_Z 100)) by (by vm_compute).
    by apply Qcmult_le_compat_r. }
  split.
  - rewrite <- (Qcmult_0_l (v / Qc_of_Z 100)). by apply Qcmult_le_compat_r.
  - rewrite <- (Qcmult_1_r base) at 2. rewrite !(Qcmult_comm base).
    by apply Qcmult_le_compat_r.
Qed.

(** X18. The discount [_calculate_discount_amount] gives an option on a
    base amount that is not negative: for the type "percentage" it is
    base * value / 100, between 0 and the base amount when the value is
    between 0 and 100; for the type "fixed_amount" it is at most the base
    amount; for any other type it is 0. *)
Theorem option_discount_is_bounded
    (opt : pyval) (base_amount discount : Decimal) :
  _calculate_discount_amount opt base_amount = Return discount →
  (0 ≤ base_amount)%Qc →
  ∃ ty,
    item opt "type" = Return ty
    ∧ (eq_str ty "percentage" = true →
       ∃ v, item opt "value" = Return (PNum v)
            ∧ discount = (base_amount * (v / Qc_of_Z 100))%Qc
            ∧ ((0 ≤ v)%Qc → (v ≤ Qc_of_Z 100)%Qc →
               (0 ≤ discount)%Qc ∧ (discount ≤ base_amount)%Qc))
    ∧ (eq_str ty "percentage" = false → eq_str ty "fixed_amount" = true →
       (discount ≤ base_amount)%Qc)
    ∧ (eq_str ty "percentage" = false → eq_str ty "fixed_amount" = false →
       discount = 0%Qc).
Proof.
  unfold _calculate_discount_amount, mbind, result_bind, mret, result_ret.
  destruct (item opt "type") as [ty|e]; [|done].
  intros Hd Hbase. exists ty. split; [done|].
  destruct (eq_str ty "percentage").
  - destruct (item opt "value") as [[| |v| | |]|e]; try done.
    cbn in Hd. injection Hd as <-.
    split; [|split; by intros [=]].
    intros _. exists v. split; [done|]. split; [done|].
    intros Hv Hv'. by apply percent_of_amount.
  - split; [by intros [=]|].
    destruct (eq_str ty "fixed_amount").
    + destruct (item opt "value") as [[| |v| | |]|e]; try done.
      cbn in Hd. injection Hd as <-.
      split; [|by intros _ [=]]. intros _ _.
      rewrite py_min_is_min. apply Qc_min_le_r.
    + injection Hd as <-. split; [by intros _ [=]|done].
Qed.

(** The option of Scenario F on a base of 500: a discount of 0.75. *)
Lemma option_discount_is_bounded_witness :
  _calculate_discount_amount (PDict fifteen_percent) (dec 500 1)
  = Return (dec 75 100)
  ∧ (0 ≤ dec 500 1)%Qc
  ∧ (0 ≤ dec 75 100)%Qc ∧ (dec 75 100 ≤ dec 500 1)%Qc.
Proof.
  assert (_calculate_discount_amount (PDict fifteen_percent) (dec 500 1)
          = Return (dec 75 100)) as Hd by decimals.
  assert (0 ≤ dec 500 1)%Qc as Hbase by (by vm_compute).
  split; [exact Hd|]. split; [exact Hbase|].
  destruct (option_discount_is_bounded (PDict fifteen_percent) (dec 500 1)
              (dec 75 100) Hd Hbase) as (ty & Hty & Hpercent & _).
  injection Hty as <-.
  destruct (Hpercent eq_refl) as (v & Hv & _ & Hbounds).
  injection Hv as <-.
  apply Hbounds; by vm_compute.
Defined.
